(** * alexandria3k: USPTO and CSV virtual-table cursors

    A shallow embedding of
    - [alexandria3k/file_xml_cache.py]   (the single-slot document cache),
    - [alexandria3k/data_sources/uspto.py] (archive discovery and the cursors
      over patents and their classifications),
    - [alexandria3k/csv_sources.py]      (the cursor over delimited text),
    together with the properties stated about them.

    Conventions of the embedding.
    - Python integers are [Z]; [&], [|] and [<<] are [Z.land], [Z.lor] and
      [Z.shiftl]. Python [str] is [string], one [ascii] per character.
    - An attribute that may hold [None] is an [option].
    - A method that mutates [self] returns the new [self]; module and class
      level state ([file_cache], [FileCache.parse_counter]) is passed
      explicitly as a [Globals] record.
    - Exceptions raised by the Python code shown (tuple unpacking, indexing,
      attribute access on [None], arithmetic on [None]) are results
      [Raise e]; a raised exception aborts the computation.
    - Calls into libraries ([zipfile], [bytes.decode], [ET.fromstring],
      [csv.reader], [os]) are represented by the values they return;
      [print] is not represented. *)

From Stdlib Require Import ZArith List String Ascii Bool Lia Arith.
Import ListNotations.

Local Open Scope string_scope.
Local Open Scope Z_scope.

(** ** Fragments of the Python runtime *)

Inductive exn : Type :=
| ValueError
| AttributeError
| IndexError
| TypeError.

(** The result of running a piece of code: a value, an exception, or
    [OutOfFuel] when a [while True] loop was cut by the fuel of its model. *)
Inductive Result (A : Type) : Type :=
| Ok (a : A)
| Raise (e : exn)
| OutOfFuel.

Arguments Ok {A} a.
Arguments Raise {A} e.
Arguments OutOfFuel {A}.

Definition bind {A B : Type} (r : Result A) (k : A -> Result B) : Result B :=
  match r with
  | Ok a => k a
  | Raise e => Raise e
  | OutOfFuel => OutOfFuel
  end.

Notation "x <- r ;; k" := (bind r (fun x => k))
  (at level 61, r at next level, right associativity).

(** [l[i]] on a Python list: a negative index counts from the end, an index
    out of range raises [IndexError]. *)
Definition py_getitem {A : Type} (l : list A) (i : Z) : Result A :=
  let n := Z.of_nat (List.length l) in
  let j := if i <? 0 then i + n else i in
  if (j <? 0) || (n <=? j) then Raise IndexError
  else match nth_error l (Z.to_nat j) with
       | Some x => Ok x
       | None => Raise IndexError
       end.

(** Values a cursor hands to the query engine. *)
Inductive Value : Type :=
| VNone
| VInt (z : Z)
| VStr (s : string).

Definition value_of_int (o : option Z) : Value :=
  match o with
  | Some z => VInt z
  | None => VNone
  end.

(** Truth value of a list-or-None ([not self.elements] is its negation). *)
Definition truthy {A : Type} (o : option (list A)) : bool :=
  match o with
  | Some (_ :: _) => true
  | _ => false
  end.

(** The double quote character, for the string constants that contain it. *)
Definition dquote : ascii := ascii_of_nat 34.

(** What the code shown takes from outside: the tree type of
    [xml.etree.ElementTree] with its parser [ET.fromstring], and the index
    flags [CONTAINER_INDEX] and [ROWID_INDEX] imported from
    [alexandria3k.data_source], whose values are not fixed here. *)
Class Env : Type := mkEnv {
  Element : Type;
  fromstring : string -> Element;
  CONTAINER_INDEX : Z;
  ROWID_INDEX : Z
}.

(** ** file_xml_cache.py *)

Module FileCache.
Section WithEnv.
Context {env : Env}.

Record t : Type := mk {
  cached_id : option Z;
  cached_data : option Element
}.

(** [__init__] *)
Definition init : t :=
  {| cached_id := None; cached_data := None |}.

(** [container_id == self.cached_id], the left side an integer. *)
Definition id_eq (container_id : Z) (cached : option Z) : bool :=
  match cached with
  | Some c => container_id =? c
  | None => false
  end.

(** [read(self, xml_chunk, container_id)]. The class attribute
    [FileCache.parse_counter] is threaded as [parse_counter]. The result is
    the returned tree, the updated [self] and the updated counter. *)
Definition read (self : t) (parse_counter : Z)
    (xml_chunk : string) (container_id : Z)
  : option Element * t * Z :=
  if id_eq container_id (cached_id self) then
    (cached_data self, self, parse_counter)
  else
    let self1 := {| cached_id := cached_id self;
                    cached_data := Some (fromstring xml_chunk) |} in
    let self2 := {| cached_id := Some container_id;
                    cached_data := cached_data self1 |} in
    (cached_data self2, self2, parse_counter + 1).

(** A sequence of [read] calls on one cache, each call a pair
    [(xml_chunk, container_id)]; the trees returned, in order. *)
Fixpoint reads (self : t) (parse_counter : Z) (calls : list (string * Z))
  : list (option Element) * t * Z :=
  match calls with
  | [] => ([], self, parse_counter)
  | (x, c) :: rest =>
      let '(tree, self', n') := read self parse_counter x c in
      let '(trees, self'', n'') := reads self' n' rest in
      (tree :: trees, self'', n'')
  end.

End WithEnv.
End FileCache.

(** Number of calls of a sequence whose id differs from the id of the call
    before them; [prev] is the id served before the first call, if any. *)
Fixpoint id_changes (prev : option Z) (ids : list Z) : Z :=
  match ids with
  | [] => 0
  | c :: rest =>
      (if FileCache.id_eq c prev then 0 else 1) + id_changes (Some c) rest
  end.

(** The module-level [file_cache] and the class attribute
    [FileCache.parse_counter]. *)
Record Globals {env : Env} : Type := mkGlobals {
  file_cache : FileCache.t;
  parse_counter : Z
}.

(** [get_file_cache().read(xml_chunk, container_id)] *)
Definition file_cache_read {env : Env} (g : Globals)
    (xml_chunk : string) (container_id : Z) : option Element * Globals :=
  let '(data, fc, n) :=
    FileCache.read (file_cache g) (parse_counter g) xml_chunk container_id in
  (data, {| file_cache := fc; parse_counter := n |}).

(** ** data_sources/uspto.py: the cursors *)

(** What a cursor reads off its [table] (a streaming table over the XML
    chunks): the chunks, the value extractor of each column (absent for the
    columns without one) and the table's multi-element extractor. *)
Record Table {env : Env} : Type := mkTable {
  data_source : list string;
  get_value_extractor_by_ordinal : Z -> option (option Element -> Value);
  get_extract_multiple : option Element -> option (list Element)
}.

(** [extract_function(x)], where [extract_function] may be [None]. *)
Definition call_extractor {env : Env}
    (f : option (option Element -> Value)) (x : option Element)
  : Result Value :=
  match f with
  | Some extract_function => Ok (extract_function x)
  | None => Raise TypeError
  end.

(** Truth value of an attribute that holds [None], [True] or [False]. *)
Definition py_bool (o : option bool) : bool :=
  match o with
  | Some b => b
  | None => false
  end.

Module XMLChunkCursor.
Section WithEnv.
Context {env : Env}.

Record t : Type := mk {
  table : Table;
  eof : bool;
  file_index : option Z;
  single_file : option bool;
  file_read : option bool;
  element_tree : option Element
}.

(** [__init__] *)
Definition init (table : Table) : t :=
  {| table := table; eof := false; file_index := None;
     single_file := None; file_read := None; element_tree := None |}.

Definition set_eof (b : bool) (self : t) : t :=
  {| table := table self; eof := b; file_index := file_index self;
     single_file := single_file self; file_read := file_read self;
     element_tree := element_tree self |}.

(** [Next] *)
Definition Next (self : t) (g : Globals) : Result (t * Globals) :=
  if py_bool (single_file self) && py_bool (file_read self) then
    Ok (set_eof true self, g)
  else
    match file_index self with
    | None => Raise TypeError
    | Some i =>
        if i + 1 >=? Z.of_nat (List.length (data_source (table self))) then
          Ok (set_eof true self, g)
        else
          let i' := i + 1 in
          chunk <- py_getitem (data_source (table self)) i' ;;
          let '(tree, g') := file_cache_read g chunk i' in
          Ok ({| table := table self; eof := false; file_index := Some i';
                 single_file := single_file self; file_read := Some true;
                 element_tree := tree |}, g')
    end.

(** [Filter]; the index name is not used. *)
Definition Filter (self : t) (g : Globals)
    (index_number : Z) (constraint_args : list Z) : Result (t * Globals) :=
  self' <-
    (if index_number =? 0 then
       Ok {| table := table self; eof := eof self; file_index := Some (-1);
             single_file := Some false; file_read := file_read self;
             element_tree := element_tree self |}
     else if negb (Z.land index_number CONTAINER_INDEX =? 0) then
       k <- py_getitem constraint_args 0 ;;
       Ok {| table := table self; eof := eof self; file_index := Some (k - 1);
             single_file := Some true; file_read := Some false;
             element_tree := element_tree self |}
     else Ok self) ;;
  Next self' g.

Definition Rowid (self : t) : option Z := file_index self.

Definition current_row_value (self : t) : option Element := element_tree self.

Definition Eof (self : t) : bool := eof self.

Definition Close (self : t) : t :=
  {| table := table self; eof := eof self; file_index := file_index self;
     single_file := single_file self; file_read := file_read self;
     element_tree := None |}.

End WithEnv.
End XMLChunkCursor.

Module PatentsCursor.
Section WithEnv.
Context {env : Env}.

(** The attributes [single_file], [file_read] and [iterator] are set to
    [None] by [__init__] and never used again; they are left out. *)
Record t : Type := mk {
  table : Table;
  files_cursor : XMLChunkCursor.t;
  eof : bool;
  item_index : Z
}.

(** [__init__] *)
Definition init (table : Table) : t :=
  {| table := table; files_cursor := XMLChunkCursor.init table;
     eof := false; item_index := -1 |}.

Definition Eof (self : t) : bool := eof self.

Definition container_id (self : t) : option Z :=
  XMLChunkCursor.Rowid (files_cursor self).

Definition Rowid (self : t) : Z := item_index self.

(** [Column] *)
Definition Column (self : t) (col : Z) : Result Value :=
  if col =? -1 then Ok (VInt (Rowid self))
  else if col =? 0 then
    Ok (value_of_int (XMLChunkCursor.Rowid (files_cursor self)))
  else if col =? 1 then
    Ok (value_of_int (XMLChunkCursor.Rowid (files_cursor self)))
  else
    call_extractor (get_value_extractor_by_ordinal (table self) col)
      (XMLChunkCursor.element_tree (files_cursor self)).

(** [Filter] *)
Definition Filter (self : t) (g : Globals)
    (index_number : Z) (constraint_args : list Z) : Result (t * Globals) :=
  r <- XMLChunkCursor.Filter (files_cursor self) g index_number constraint_args ;;
  let '(fc, g') := r in
  item <-
    (if negb (Z.land index_number ROWID_INDEX =? 0) then
       py_getitem constraint_args 1
     else Ok 0) ;;
  Ok ({| table := table self; files_cursor := fc;
         eof := XMLChunkCursor.Eof fc; item_index := item |}, g').

(** [Next] *)
Definition Next (self : t) (g : Globals) : Result (t * Globals) :=
  r <- XMLChunkCursor.Next (files_cursor self) g ;;
  let '(fc, g') := r in
  Ok ({| table := table self; files_cursor := fc;
         eof := XMLChunkCursor.eof fc; item_index := 0 |}, g').

Definition current_row_value (self : t) : option Element :=
  XMLChunkCursor.element_tree (files_cursor self).

End WithEnv.
End PatentsCursor.

(** The interface a cursor offers to a cursor nested in it (its
    [parent_cursor]): the methods [PatentsElementsCursor] and
    [PatentsIpcrCurcor] call on their parent. A state of type [C] holds
    all the methods read and write, the globals included. [remaining] is
    not a method: it bounds the number of rows still to come, and gives
    the loop of the nested cursor its fuel. *)
Module Cursor.

Class ops {env : Env} (C : Type) : Type := mk {
  Eof : C -> bool;
  Next : C -> Result C;
  Rowid : C -> Z;
  container_id : C -> option Z;
  current_row_value : C -> option Element;
  remaining : C -> nat
}.

(** The rows a cursor is on from [c] until Eof or an exception, [c]
    included: what a caller sees that calls [Next] while [Eof] is false. *)
Fixpoint rows_from {env : Env} {C : Type} {cursor : ops C}
    (fuel : nat) (c : C) : list C :=
  match fuel with
  | O => []
  | S fuel' =>
      if Eof c then []
      else c :: match Next c with
                | Ok c' => rows_from fuel' c'
                | _ => []
                end
  end.

Definition rows {env : Env} {C : Type} {cursor : ops C} (c : C) : list C :=
  rows_from (S (remaining c)) c.

(** [Next] returns or raises, and each [Next] from a row uses up
    [remaining]. *)
Class laws {env : Env} (C : Type) {O : ops C} : Prop := mk_laws {
  Next_fuel : forall c : C, Next c <> OutOfFuel;
  Next_remaining :
    forall c c' : C,
      Eof c = false -> Next c = Ok c' -> (remaining c' < remaining c)%nat
}.

End Cursor.

(** A call of [Next] or of [Filter] on the root cursor [pc] under the
    globals [g] returns and leaves the cursor and the globals as in [s]. *)
Definition arrives {env : Env} (pc : PatentsCursor.t) (g : Globals)
    (s : PatentsCursor.t * Globals) : Prop :=
  PatentsCursor.Next pc g = Ok s
  \/ exists index_number constraint_args,
       PatentsCursor.Filter pc g index_number constraint_args = Ok s.

(** A [PatentsCursor] with the globals it runs in, as a parent cursor. *)
Definition PatentsCursor_remaining {env : Env} (c : PatentsCursor.t) : nat :=
  if PatentsCursor.eof c then O
  else
    S (match XMLChunkCursor.file_index (PatentsCursor.files_cursor c) with
       | Some i =>
           Z.to_nat
             (Z.of_nat
                (List.length
                   (data_source
                      (XMLChunkCursor.table (PatentsCursor.files_cursor c))))
              - 1 - i)
       | None => O
       end).

#[global] Instance PatentsCursor_ops {env : Env}
  : Cursor.ops (PatentsCursor.t * Globals) :=
  {| Cursor.Eof := fun s => PatentsCursor.Eof (fst s);
     Cursor.Next := fun s => PatentsCursor.Next (fst s) (snd s);
     Cursor.Rowid := fun s => PatentsCursor.Rowid (fst s);
     Cursor.container_id := fun s => PatentsCursor.container_id (fst s);
     Cursor.current_row_value := fun s => PatentsCursor.current_row_value (fst s);
     Cursor.remaining := fun s => PatentsCursor_remaining (fst s) |}.

Module PatentsElementsCursor.
Section WithParent.
Context {env : Env} {P : Type} {parent : Cursor.ops P}.

(** The attributes come from [ElementsCursor.__init__] (in
    [alexandria3k.data_source]); [extract_multiple] is set by
    [PatentsIpcrCurcor.__init__]. *)
Record t : Type := mk {
  table : Table;
  parent_cursor : P;
  elements : option (list Element);
  eof : bool;
  element_index : Z;
  extract_multiple : option Element -> option (list Element)
}.

Definition set_eof (b : bool) (self : t) : t :=
  {| table := table self; parent_cursor := parent_cursor self;
     elements := elements self; eof := b;
     element_index := element_index self;
     extract_multiple := extract_multiple self |}.

Definition set_elements (l : option (list Element)) (self : t) : t :=
  {| table := table self; parent_cursor := parent_cursor self;
     elements := l; eof := eof self;
     element_index := element_index self;
     extract_multiple := extract_multiple self |}.

Definition set_element_index (i : Z) (self : t) : t :=
  {| table := table self; parent_cursor := parent_cursor self;
     elements := elements self; eof := eof self;
     element_index := i;
     extract_multiple := extract_multiple self |}.

Definition set_parent_cursor (p : P) (self : t) : t :=
  {| table := table self; parent_cursor := p;
     elements := elements self; eof := eof self;
     element_index := element_index self;
     extract_multiple := extract_multiple self |}.

(** [len(self.elements)] *)
Definition len_elements (self : t) : Z :=
  match elements self with
  | Some l => Z.of_nat (List.length l)
  | None => 0
  end.

(** The first [if not self.elements] of the loop of [Next]. *)
Definition extract_elements (self : t) : t :=
  if negb (truthy (elements self)) then
    set_element_index (-1)
      (set_elements
         (extract_multiple self
            (Cursor.current_row_value (parent_cursor self)))
         self)
  else self.

(** The body of [Next]: the [while True] loop, one iteration per unit of
    fuel. [self.parent_cursor.Next()] mutates the parent in place. *)
Fixpoint Next_loop (fuel : nat) (self : t) : Result t :=
  match fuel with
  | O => OutOfFuel
  | S fuel' =>
      if Cursor.Eof (parent_cursor self) then Ok (set_eof true self)
      else
        let self := extract_elements self in
        if negb (truthy (elements self)) then
          p <- Cursor.Next (parent_cursor self) ;;
          Next_loop fuel' (set_elements None (set_parent_cursor p self))
        else if element_index self + 1 <? len_elements self then
          Ok (set_eof false (set_element_index (element_index self + 1) self))
        else
          p <- Cursor.Next (parent_cursor self) ;;
          Next_loop fuel' (set_elements None (set_parent_cursor p self))
  end.

(** [Next]: the loop, with one iteration more than the parent has rows
    left. *)
Definition Next (self : t) : Result t :=
  Next_loop (S (Cursor.remaining (parent_cursor self))) self.

Definition Eof (self : t) : bool := eof self.

(** [n] calls of [Next] in a row. *)
Fixpoint Next_times (n : nat) (self : t) : Result t :=
  match n with
  | O => Ok self
  | S n' => self' <- Next self ;; Next_times n' self'
  end.

(** The cursor is on an element: it holds a list that is not empty and an
    index into it. *)
Definition on_element (self : t) : Prop :=
  truthy (elements self) = true
  /\ 0 <= element_index self < len_elements self.

(** What holds of the cursor between two calls of [Next]: it holds no
    elements (as after [__init__], or with the list cleared), or it is on
    an element. *)
Definition settled (self : t) : Prop :=
  truthy (elements self) = false \/ on_element self.

End WithParent.
End PatentsElementsCursor.

Module PatentsIpcrCurcor.
Section WithParent.
Context {env : Env} {P : Type} {parent : Cursor.ops P}.

Local Abbreviation t := (@PatentsElementsCursor.t env P).

(** Modelled from the spec: [ElementsCursor.__init__], which is defined in
    [alexandria3k.data_source]. The cursor starts with no element list held
    and the element index unset, which is -1. The extractor is the one
    [PatentsIpcrCurcor.__init__] takes from the table. *)
Definition init (table : Table) (parent_cursor : P) : t :=
  {| PatentsElementsCursor.table := table;
     PatentsElementsCursor.parent_cursor := parent_cursor;
     PatentsElementsCursor.elements := None;
     PatentsElementsCursor.eof := false;
     PatentsElementsCursor.element_index := -1;
     PatentsElementsCursor.extract_multiple := get_extract_multiple table |}.

(** [Rowid] *)
Definition Rowid (self : t) : Z :=
  Z.lor
    (Z.shiftl (Cursor.Rowid (PatentsElementsCursor.parent_cursor self)) 14)
    (PatentsElementsCursor.element_index self).

(** Modelled from the spec: [ElementsCursor.record_id], which is defined in
    [alexandria3k.data_source]. Column 0 resolves to the composite row id. *)
Definition record_id (self : t) : Z := Rowid self.

(** Modelled from the spec: the current element of the cursor,
    [elements[element_index]]; [None] where there is none. *)
Definition current_row_value (self : t) : option Element :=
  match PatentsElementsCursor.elements self with
  | Some l =>
      match py_getitem l (PatentsElementsCursor.element_index self) with
      | Ok x => Some x
      | _ => None
      end
  | None => None
  end.

(** Modelled from the spec: [ElementsCursor.Column], which is defined in
    [alexandria3k.data_source]. The remaining columns resolve through the
    extractor of the ordinal, applied to the current element. *)
Definition ElementsCursor_Column (self : t) (col : Z) : Result Value :=
  call_extractor
    (get_value_extractor_by_ordinal (PatentsElementsCursor.table self) col)
    (current_row_value self).

(** [Column] *)
Definition Column (self : t) (col : Z) : Result Value :=
  if col =? 0 then Ok (VInt (record_id self))
  else if col =? 2 then
    Ok (value_of_int
          (Cursor.container_id (PatentsElementsCursor.parent_cursor self)))
  else ElementsCursor_Column self col.

(** Modelled from the spec: [ElementsCursor.container_id], which is defined
    in [alexandria3k.data_source]. A nested cursor is in the container of
    its parent. *)
Definition container_id (self : t) : option Z :=
  Cursor.container_id (PatentsElementsCursor.parent_cursor self).

End WithParent.
End PatentsIpcrCurcor.

(** A nested cursor as the parent of a cursor nested deeper. *)
Section NestedAsParent.
Context {env : Env} {P : Type} {parent : Cursor.ops P}.

Definition list_len (o : option (list Element)) : nat :=
  match o with
  | Some l => List.length l
  | None => O
  end.

(** Rows a nested cursor will make of the parent rows from [p] on, each
    parent row extracted with [extract]. *)
Fixpoint pending (extract : option Element -> option (list Element))
    (fuel : nat) (p : P) : nat :=
  match fuel with
  | O => O
  | S fuel' =>
      if Cursor.Eof p then O
      else
        (list_len (extract (Cursor.current_row_value p))
         + match Cursor.Next p with
           | Ok p' => pending extract fuel' p'
           | _ => O
           end)%nat
  end.

(** The rows a nested cursor makes of the parent row [p]: one per element
    extracted, with the indices 0, 1, ... in order. Each is given as the
    parent row, the list held and the element index. *)
Definition element_rows (extract : option Element -> option (list Element))
    (p : P) : list (P * option (list Element) * Z) :=
  map (fun i => (p, extract (Cursor.current_row_value p), Z.of_nat i))
      (seq 0 (list_len (extract (Cursor.current_row_value p)))).

(** A row of the nested cursor, as the parent row, the list held and the
    element index. *)
Definition row_of (c : @PatentsElementsCursor.t env P)
  : P * option (list Element) * Z :=
  (PatentsElementsCursor.parent_cursor c,
   PatentsElementsCursor.elements c,
   PatentsElementsCursor.element_index c).

Definition PatentsIpcrCurcor_remaining
    (c : @PatentsElementsCursor.t env P) : nat :=
  let p := PatentsElementsCursor.parent_cursor c in
  let extract := PatentsElementsCursor.extract_multiple c in
  if PatentsElementsCursor.eof c then O
  else if truthy (PatentsElementsCursor.elements c) then
    S (Z.to_nat (PatentsElementsCursor.len_elements c
                 - PatentsElementsCursor.element_index c - 1)
       + (if Cursor.Eof p then O
          else match Cursor.Next p with
               | Ok p' => pending extract (S (Cursor.remaining p')) p'
               | _ => O
               end))
  else S (pending extract (S (Cursor.remaining p)) p).

#[global] Instance PatentsIpcrCurcor_ops
  : Cursor.ops (@PatentsElementsCursor.t env P) :=
  {| Cursor.Eof := PatentsElementsCursor.Eof;
     Cursor.Next := PatentsElementsCursor.Next;
     Cursor.Rowid := PatentsIpcrCurcor.Rowid;
     Cursor.container_id := PatentsIpcrCurcor.container_id;
     Cursor.current_row_value := PatentsIpcrCurcor.current_row_value;
     Cursor.remaining := PatentsIpcrCurcor_remaining |}.

End NestedAsParent.

(** ** data_sources/uspto.py: discovery of the containers *)

(** [XML_DELIMITER] *)
Definition XML_DELIMITER : string :=
  "<?xml version=" ++ String dquote "1.0" ++ String dquote " encoding="
  ++ String dquote "UTF-8" ++ String dquote "?>".

(** [s[n:]] *)
Fixpoint string_drop (n : nat) (s : string) : string :=
  match n, s with
  | S n', String _ s' => string_drop n' s'
  | _, _ => s
  end.

(** [s[:n]] *)
Fixpoint string_take (n : nat) (s : string) : string :=
  match n, s with
  | S n', String c s' => String c (string_take n' s')
  | _, _ => EmptyString
  end.

(** [s.endswith(suffix)] *)
Definition endswith (s suffix : string) : bool :=
  (String.length suffix <=? String.length s)%nat
  && String.eqb (string_drop (String.length s - String.length suffix) s) suffix.

(** [s.split(sep)] for a separator that is not empty: [skip] characters of
    a separator just found are still to be passed over, [cur] is the piece
    read so far. *)
Fixpoint split_from (sep s : string) (skip : nat) (cur : string)
  : list string :=
  match s with
  | EmptyString => [cur]
  | String c s' =>
      match skip with
      | S k => split_from sep s' k cur
      | O =>
          if prefix sep s then
            cur :: split_from sep s' (String.length sep - 1) EmptyString
          else split_from sep s' O (cur ++ String c EmptyString)
      end
  end.

Definition split (s sep : string) : list string :=
  split_from sep s O EmptyString.

(** The pattern of [ZipFiles.__init__], matched by [re.search]: the
    characters file= and a double quote, one or more characters that are
    not a double quote (group 1), and a double quote. [re_search] is the
    text of group 1 of the leftmost match, if any. *)
Definition file_attr_open : string := "file=" ++ String dquote EmptyString.

(** The characters before the first double quote of [s], when it has one. *)
Fixpoint until_quote (s : string) : option string :=
  match s with
  | EmptyString => None
  | String c s' =>
      if Ascii.eqb c dquote then Some EmptyString
      else option_map (String c) (until_quote s')
  end.

(** A match of the pattern that starts at the first character of [s]. *)
Definition match_here (s : string) : option string :=
  if prefix file_attr_open s then
    match until_quote (string_drop (String.length file_attr_open) s) with
    | Some EmptyString => None
    | Some v => Some v
    | None => None
    end
  else None.

Fixpoint re_search (s : string) : option string :=
  match match_here s with
  | Some v => Some v
  | None =>
      match s with
      | EmptyString => None
      | String _ s' => re_search s'
      end
  end.

(** [s] has no double quote. *)
Fixpoint quote_free (s : string) : bool :=
  match s with
  | EmptyString => true
  | String c s' => negb (Ascii.eqb c dquote) && quote_free s'
  end.

(** [s] holds a name attribute: somewhere in it, the characters file= and
    a double quote, a value that is not empty and has no double quote, and
    a closing double quote. *)
Definition has_name_attribute (s : string) : Prop :=
  exists pre value post : string,
    s = pre ++ file_attr_open ++ value ++ String dquote post
    /\ value <> EmptyString
    /\ quote_free value = true.

(** A zip archive as [zipfile.ZipFile] presents it: the member names, and
    the content of a member, read and decoded as UTF-8. *)
Record ZipArchive : Type := mkZipArchive {
  namelist : list string;
  read_decode : string -> string
}.

(** The part of the file system [ZipFiles.__init__] reads. *)
Record FileSystem : Type := mkFileSystem {
  listdir : string -> list string;
  isfile : string -> bool;
  ZipFile : string -> ZipArchive
}.

(** [os.path.join(a, b)] (POSIX) *)
Definition path_join (a b : string) : string :=
  if prefix "/" b then b
  else if String.eqb a EmptyString || endswith a "/" then a ++ b
  else a ++ "/" ++ b.

Module ZipFiles.

(** The attributes [file_name] and [xml_info] hold the loop variables of
    [__init__]; they are kept as variables of the loops. *)
Record t : Type := mk {
  file_path : list string;
  unique_patent_xml_files : list string;
  patent_file_name : list string;
  sample : string -> bool
}.

(** The first loop of [__init__], over [os.listdir(directory)]. *)
Fixpoint collect_paths (fs : FileSystem) (directory : string)
    (sample_container : string -> bool) (names : list string) (self : t) : t :=
  match names with
  | [] => self
  | file_name :: rest =>
      let path := path_join directory file_name in
      if negb (isfile fs path) then
        collect_paths fs directory sample_container rest self
      else if negb (sample_container path) then
        collect_paths fs directory sample_container rest self
      else
        collect_paths fs directory sample_container rest
          {| file_path := file_path self ++ [path];
             unique_patent_xml_files := unique_patent_xml_files self;
             patent_file_name := patent_file_name self;
             sample := sample self |}
  end.

(** The innermost loop of [__init__], over the pieces of one XML member. *)
Fixpoint read_chunks (xml_files : list string) (self : t) : Result t :=
  match xml_files with
  | [] => Ok self
  | xml_info :: rest =>
      if (String.length xml_info =? 0)%nat then read_chunks rest self
      else
        match re_search (string_take 200 xml_info) with
        | None => Raise AttributeError
        | Some extracted_id =>
            read_chunks rest
              {| file_path := file_path self;
                 unique_patent_xml_files :=
                   unique_patent_xml_files self ++ [xml_info];
                 patent_file_name := patent_file_name self ++ [extracted_id];
                 sample := sample self |}
        end
  end.

(** The second loop of [__init__], over [self.file_path]. *)
Fixpoint read_archives (fs : FileSystem) (paths : list string) (self : t)
  : Result t :=
  match paths with
  | [] => Ok self
  | uspto_record :: rest =>
      let zip_ref := ZipFile fs uspto_record in
      let xml_file :=
        filter (fun file => endswith file ".xml") (namelist zip_ref) in
      match xml_file with
      | [file_name] =>
          let xml_content := read_decode zip_ref file_name in
          let xml_files := split xml_content XML_DELIMITER in
          self' <- read_chunks xml_files self ;;
          read_archives fs rest self'
      | _ => Raise ValueError
      end
  end.

(** [__init__(self, directory, sample_container)] *)
Definition init (fs : FileSystem) (directory : string)
    (sample_container : string -> bool) : Result t :=
  let self :=
    {| file_path := []; unique_patent_xml_files := [];
       patent_file_name := []; sample := sample_container |} in
  let self :=
    collect_paths fs directory sample_container (listdir fs directory) self in
  read_archives fs (file_path self) self.

Definition get_xml_files_array (self : t) : list string :=
  unique_patent_xml_files self.

(** [range(0, len(self.unique_patent_xml_files))] *)
Definition get_container_iterator (self : t) : list Z :=
  map Z.of_nat (seq 0 (List.length (unique_patent_xml_files self))).

Definition get_container_name (self : t) (fid : Z) : Result string :=
  py_getitem (patent_file_name self) fid.

End ZipFiles.

(** *** What discovery is expected to find *)

(** The paths [ZipFiles.__init__] opens: the entries of the directory that
    are files and that the sampling predicate accepts, in listing order. *)
Definition selected_paths (fs : FileSystem) (directory : string)
    (sample_container : string -> bool) : list string :=
  filter (fun path => isfile fs path && sample_container path)
         (map (path_join directory) (listdir fs directory)).

(** The XML members of an archive. *)
Definition xml_members (z : ZipArchive) : list string :=
  filter (fun file => endswith file ".xml") (namelist z).

Definition nonempty (s : string) : bool := negb (String.length s =? 0)%nat.

(** The fragments of an archive with one XML member: the pieces of its
    content between the boundary markers that are not empty. *)
Definition chunks_of (z : ZipArchive) : list string :=
  match xml_members z with
  | [file_name] =>
      filter nonempty (split (read_decode z file_name) XML_DELIMITER)
  | _ => []
  end.

(** The name found in the first 200 characters of a fragment, if any. *)
Definition chunk_name (xml_info : string) : option string :=
  re_search (string_take 200 xml_info).

Definition name_or_empty (xml_info : string) : string :=
  match chunk_name xml_info with
  | Some name => name
  | None => EmptyString
  end.

(** The fragment has a name attribute in its first 200 characters. *)
Definition named (xml_info : string) : Prop :=
  has_name_attribute (string_take 200 xml_info).

(** An archive discovery accepts: one XML member, and a name attribute in
    the first 200 characters of every fragment. *)
Definition well_formed_archive (z : ZipArchive) : Prop :=
  List.length (xml_members z) = 1%nat /\ Forall named (chunks_of z).

(** A discovery fault: the XML members are not exactly one, or some
    fragment has no name attribute in its first 200 characters. *)
Definition discovery_fault (z : ZipArchive) : Prop :=
  List.length (xml_members z) <> 1%nat
  \/ Exists (fun xml_info => ~ named xml_info) (chunks_of z).

(** [self] once discovery has added the fragments [chunks] and their
    names. *)
Definition with_chunks (self : ZipFiles.t) (chunks : list string)
  : ZipFiles.t :=
  {| ZipFiles.file_path := ZipFiles.file_path self;
     ZipFiles.unique_patent_xml_files :=
       (ZipFiles.unique_patent_xml_files self ++ chunks)%list;
     ZipFiles.patent_file_name :=
       (ZipFiles.patent_file_name self ++ map name_or_empty chunks)%list;
     ZipFiles.sample := ZipFiles.sample self |}.

(** ** csv_sources.py *)

Module CsvCursor.

(** The table of the cursor, reduced to what [Filter] reads off it:
    [records] are the rows [csv.reader] yields for the file at
    [table.data_source], split at the table's delimiter. The reader yields
    the empty list for an empty line. *)
Record Table : Type := mkTable {
  records : list (list string)
}.

(** [reader] holds the rows the iterator has not yielded yet. *)
Record t : Type := mk {
  table : Table;
  eof : bool;
  item_index : Z;
  row_value : option (list string);
  reader : option (list (list string))
}.

(** [__init__] *)
Definition init (table : Table) : t :=
  {| table := table; eof := false; item_index := -1;
     row_value := None; reader := None |}.

Definition Eof (self : t) : bool := eof self.

Definition Rowid (self : t) : Z := item_index self.

(** [next(self.reader, None)]: the row and the iterator after it. *)
Definition next_or_None (reader : option (list (list string)))
  : Result (option (list string) * option (list (list string))) :=
  match reader with
  | None => Raise TypeError
  | Some [] => Ok (None, Some [])
  | Some (row :: rest) => Ok (Some row, Some rest)
  end.

(** [Next] *)
Definition Next (self : t) : Result t :=
  r <- next_or_None (reader self) ;;
  let '(row, reader') := r in
  if negb (truthy row) then
    Ok {| table := table self; eof := true; item_index := item_index self;
          row_value := row; reader := reader' |}
  else
    Ok {| table := table self; eof := eof self;
          item_index := item_index self + 1;
          row_value := row; reader := reader' |}.

(** [Filter]; its arguments are not used. *)
Definition Filter (self : t) : Result t :=
  let self :=
    {| table := table self; eof := false; item_index := -1;
       row_value := row_value self; reader := Some (records (table self)) |} in
  r <- next_or_None (reader self) ;;
  Next {| table := table self; eof := eof self;
          item_index := item_index self; row_value := row_value self;
          reader := snd r |}.

End CsvCursor.

(** ** Sample inputs *)

Module Sample.

(** A stand-in for the parser: the tree of a chunk is the chunk, and its
    sub-elements are the characters after the first, one element each. *)
Definition env : Env :=
  {| Element := string;
     fromstring := fun s => s;
     CONTAINER_INDEX := 1;
     ROWID_INDEX := 2 |}.

Definition chars_after_first (tree : option (@Element env))
  : option (list (@Element env)) :=
  match tree with
  | Some s =>
      Some (map (fun c => String c EmptyString)
                (list_ascii_of_string (string_drop 1 s)))
  | None => None
  end.

Definition table (chunks : list string) : @Table env :=
  {| data_source := chunks;
     get_value_extractor_by_ordinal := fun _ => None;
     get_extract_multiple := chars_after_first |}.

Definition globals : @Globals env :=
  {| file_cache := @FileCache.init env; parse_counter := 0 |}.

(** A fragment of a weekly file, with the name [name] in its root tag. *)
Definition fragment (name body : string) : string :=
  "<us-patent-grant file=" ++ String dquote name ++ String dquote ">"
  ++ body ++ "</us-patent-grant>".

(** A directory [dir] with one archive [week.zip] whose only XML member
    has the content [content]. *)
Definition one_archive (content : string) : FileSystem :=
  {| listdir := fun _ => ["week.zip"];
     isfile := fun _ => true;
     ZipFile := fun _ =>
       {| namelist := ["week.xml"; "readme.txt"];
          read_decode := fun _ => content |} |}.

Definition two_same_names : string :=
  XML_DELIMITER ++ fragment "A.XML" "x" ++ XML_DELIMITER ++ fragment "A.XML" "y".

Definition two_names : string :=
  XML_DELIMITER ++ fragment "A.XML" "x" ++ XML_DELIMITER ++ fragment "B.XML" "y".

Abbreviation root := (@PatentsCursor.t env * @Globals env)%type.
Abbreviation nested := (@PatentsElementsCursor.t env root).

(** A root cursor over [chunks] after [Filter] for a full scan, with the
    globals it has left. *)
Definition patents (chunks : list string) : root :=
  match PatentsCursor.Filter (PatentsCursor.init (table chunks)) globals 0 []
  with
  | Ok s => s
  | _ => (PatentsCursor.init (table chunks), globals)
  end.

(** A nested cursor over it, as constructed. *)
Definition classifications (chunks : list string) : nested :=
  PatentsIpcrCurcor.init (table chunks) (patents chunks).

(** A nested cursor on element 3 of a parent row with row id 5. *)
Definition on_fourth_element : nested :=
  {| PatentsElementsCursor.table := table ["a1234"];
     PatentsElementsCursor.parent_cursor :=
       ({| PatentsCursor.table := table ["a1234"];
           PatentsCursor.files_cursor :=
             PatentsCursor.files_cursor (fst (patents ["a1234"]));
           PatentsCursor.eof := false;
           PatentsCursor.item_index := 5 |},
        snd (patents ["a1234"]));
     PatentsElementsCursor.elements := Some ["1"; "2"; "3"; "4"];
     PatentsElementsCursor.eof := false;
     PatentsElementsCursor.element_index := 3;
     PatentsElementsCursor.extract_multiple := chars_after_first |}.

(** What discovery makes of the archive with the fragments A.XML and
    B.XML. *)
Definition zip_files : ZipFiles.t :=
  match ZipFiles.init (one_archive two_names) "dir" (fun _ => true) with
  | Ok self => self
  | _ => {| ZipFiles.file_path := []; ZipFiles.unique_patent_xml_files := [];
            ZipFiles.patent_file_name := []; ZipFiles.sample := fun _ => true |}
  end.

(** A delimited file with a header, a record, an empty line and a second
    record, as the reader yields it. *)
Definition works_asjcs : CsvCursor.Table :=
  {| CsvCursor.records :=
       [["work_id"; "asjc_id"]; ["1"; "1000"]; []; ["2"; "1100"]] |}.

End Sample.

(** * Further parts of the code *)

(** [sep.join(pieces)] *)
Fixpoint string_join (sep : string) (pieces : list string) : string :=
  match pieces with
  | [] => EmptyString
  | piece :: rest =>
      match rest with
      | [] => piece
      | _ :: _ => piece ++ sep ++ string_join sep rest
      end
  end.

(** [sep in s] *)
Fixpoint occurs (sep s : string) : bool :=
  prefix sep s
  || match s with
     | EmptyString => false
     | String _ s' => occurs sep s'
     end.

(** [enumerate(l, start)] *)
Fixpoint enumerate {A : Type} (start : Z) (l : list A) : list (Z * A) :=
  match l with
  | [] => []
  | x :: rest => (start, x) :: enumerate (start + 1) rest
  end.

(** ** file_xml_cache.py: a source behind the cache *)

(** The cache agrees with a source that has the chunk [chunk_of c] under
    the id [c]: an id it holds comes with the tree of that chunk. *)
Definition agrees {env : Env} (chunk_of : Z -> string) (self : FileCache.t)
  : Prop :=
  match FileCache.cached_id self with
  | Some c => FileCache.cached_data self = Some (fromstring (chunk_of c))
  | None => True
  end.

(** ** data_sources/uspto.py: what the query engine sees of a row *)

(** [VTSource.Create] hands the cursors a streaming table over
    [self.data_files.get_xml_files_array()]; the extractors are those of the
    table's metadata. *)
Definition streaming_table {env : Env} (data_files : ZipFiles.t)
    (extractor : Z -> option (option Element -> Value))
    (extract_multiple : option Element -> option (list Element)) : Table :=
  {| data_source := ZipFiles.get_xml_files_array data_files;
     get_value_extractor_by_ordinal := extractor;
     get_extract_multiple := extract_multiple |}.

(** [VTSource.get_container_iterator] and [VTSource.get_container_name]
    hand on to the data files. *)
Definition VTSource_get_container_iterator (data_files : ZipFiles.t)
  : list Z :=
  ZipFiles.get_container_iterator data_files.

Definition VTSource_get_container_name (data_files : ZipFiles.t) (fid : Z)
  : Result string :=
  ZipFiles.get_container_name data_files fid.

(** A row of the root cursor as the engine reads it: the container id,
    the row id, the tree, columns 0 and 1, and the parse counter then. *)
Definition patent_row {env : Env} (s : PatentsCursor.t * Globals)
  : option Z * Z * option Element * Result Value * Result Value * Z :=
  (PatentsCursor.container_id (fst s),
   PatentsCursor.Rowid (fst s),
   PatentsCursor.current_row_value (fst s),
   PatentsCursor.Column (fst s) 0,
   PatentsCursor.Column (fst s) 1,
   parse_counter (snd s)).

(** What the engine reads of the container [fst ic] when it is parsed
    afresh from the chunk [snd ic], the parse counter having been [n] on
    container 0. *)
Definition parsed_patent_row {env : Env} (n : Z) (ic : Z * string)
  : option Z * Z * option Element * Result Value * Result Value * Z :=
  (Some (fst ic), 0, Some (fromstring (snd ic)),
   Ok (VInt (fst ic)), Ok (VInt (fst ic)), n + fst ic).

(** A row of the nested cursor over the root cursor as the engine reads
    it: column 2 (patent_id), the element index and the list the element
    is taken from. *)
Definition classification_row {env : Env}
    (c : @PatentsElementsCursor.t env (PatentsCursor.t * Globals))
  : Result Value * Z * option (list Element) :=
  (PatentsIpcrCurcor.Column c 2,
   PatentsElementsCursor.element_index c,
   PatentsElementsCursor.elements c).

(** The rows the nested cursor is expected to make of a tree: one per
    element the extractor finds, with the container id and the element's
    position. *)
Definition classification_rows_of {env : Env}
    (extract : option Element -> option (list Element))
    (container : option Z) (tree : option Element)
  : list (Result Value * Z * option (list Element)) :=
  map (fun j => (Ok (value_of_int container), Z.of_nat j, extract tree))
      (seq 0 (list_len (extract tree))).

(** ** csv_sources.py: columns and rows *)


(** The rows a caller reads that calls [Next] while [Eof] is false: row id
    and record of each. *)
Fixpoint CsvCursor_rows_from (fuel : nat) (self : CsvCursor.t)
  : list (Z * option (list string)) :=
  match fuel with
  | O => []
  | S fuel' =>
      if CsvCursor.Eof self then []
      else (CsvCursor.Rowid self, CsvCursor.row_value self)
           :: match CsvCursor.Next self with
              | Ok self' => CsvCursor_rows_from fuel' self'
              | _ => []
              end
  end.

Definition CsvCursor_rows (self : CsvCursor.t)
  : list (Z * option (list string)) :=
  CsvCursor_rows_from
    (S (List.length (CsvCursor.records (CsvCursor.table self)))) self.

(** The records up to the first empty one. *)
Fixpoint until_empty (rows : list (list string)) : list (list string) :=
  match rows with
  | [] => []
  | [] :: _ => []
  | row :: rest => row :: until_empty rest
  end.

(** ** Further sample inputs *)

Module Scenario.

Definition chunks : list string := ["a12"; "b"; "c3"].

(** A source with the chunks above under the ids 0, 1 and 2. *)
Definition chunk_of (c : Z) : string :=
  match c with
  | 0 => "a12"
  | 1 => "b"
  | _ => "c3"
  end.

(** Reads of the containers 0, 0, 1 and 0 again. *)
Definition calls : list (string * Z) :=
  [("a12", 0); ("a12", 0); ("b", 1); ("a12", 0)].

(** A root cursor over the chunks, as constructed. *)
Definition fresh_patents : @PatentsCursor.t Sample.env :=
  PatentsCursor.init (Sample.table chunks).

(** The root cursor after [Filter] has pinned it to the container [k]. *)
Definition pinned (k : Z) : Sample.root :=
  match PatentsCursor.Filter fresh_patents Sample.globals 1 [k] with
  | Ok s => s
  | _ => (fresh_patents, Sample.globals)
  end.

(** A nested cursor over it, as constructed. *)
Definition pinned_classifications (k : Z) : Sample.nested :=
  PatentsIpcrCurcor.init (Sample.table chunks) (pinned k).

(** A directory with the entries [week.zip] and [skip.zip]: the first is
    the archive with the fragments A.XML and B.XML, the second is
    [other]. *)
Definition two_entries (other : ZipArchive) : FileSystem :=
  {| listdir := fun _ => ["week.zip"; "skip.zip"];
     isfile := fun _ => true;
     ZipFile := fun path =>
       if String.eqb path "dir/week.zip" then
         ZipFile (Sample.one_archive Sample.two_names) path
       else other |}.

(** A sampling predicate that accepts [week.zip] alone. *)
Definition week_only (path : string) : bool := String.eqb path "dir/week.zip".

Definition no_members : ZipArchive :=
  {| namelist := []; read_decode := fun _ => EmptyString |}.

Definition two_members : ZipArchive :=
  {| namelist := ["a.xml"; "b.xml"]; read_decode := fun _ => EmptyString |}.


End Scenario.

(** * Properties *)

(** ** The document cache *)

Section FileCacheProperties.
Context {env : Env}.

Lemma read_hit (self : FileCache.t) (n : Z) (x : string) (c : Z) :
  FileCache.cached_id self = Some c ->
  FileCache.read self n x c = (FileCache.cached_data self, self, n).
Proof.
  intros Hid. unfold FileCache.read, FileCache.id_eq.
  rewrite Hid, Z.eqb_refl. reflexivity.
Qed.

Lemma read_miss (self : FileCache.t) (n : Z) (x : string) (c : Z) :
  FileCache.cached_id self <> Some c ->
  FileCache.read self n x c =
    (Some (fromstring x),
     {| FileCache.cached_id := Some c;
        FileCache.cached_data := Some (fromstring x) |},
     n + 1).
Proof.
  intros Hid. unfold FileCache.read, FileCache.id_eq.
  destruct (FileCache.cached_id self) as [c0|]; [|reflexivity].
  destruct (Z.eqb_spec c c0) as [->|_]; [congruence|reflexivity].
Qed.

(** After a call, the slot is keyed by the id of that call and holds the
    tree the call returned. *)
Lemma read_slot (self : FileCache.t) (n : Z) (x : string) (c : Z) :
  FileCache.cached_id (snd (fst (FileCache.read self n x c))) = Some c
  /\ FileCache.cached_data (snd (fst (FileCache.read self n x c)))
     = fst (fst (FileCache.read self n x c)).
Proof.
  unfold FileCache.read, FileCache.id_eq.
  destruct (FileCache.cached_id self) as [c0|] eqn:Hid; cbn; [|auto].
  destruct (Z.eqb_spec c c0) as [->|_]; cbn; auto.
Qed.

Lemma reads_counter (calls : list (string * Z)) :
  forall (self : FileCache.t) (n : Z),
    snd (FileCache.reads self n calls)
    = n + id_changes (FileCache.cached_id self) (map snd calls).
Proof.
  induction calls as [|[x c] rest IH]; intros self n; cbn.
  - lia.
  - pose proof (read_slot self n x c) as [Hid _].
    destruct (FileCache.read self n x c) as [[tree self'] n'] eqn:Hread.
    cbn in Hid. specialize (IH self' n').
    destruct (FileCache.reads self' n' rest) as [[trees self''] n''].
    cbn in *. rewrite IH, Hid.
    unfold FileCache.read in Hread.
    destruct (FileCache.id_eq c (FileCache.cached_id self));
      inversion Hread; subst; lia.
Qed.

(** C1. Cache correctness. Take a cache in any state and with any value of
    the parse counter, that is, after any sequence of earlier calls.
    (a) The first call on a new cache parses. (b) Of two calls in a row,
    the second, when it carries the id of the first, returns the tree the
    first returned and leaves cache and counter as they are, whatever bytes
    it is given; when it carries another id it returns the tree parsed
    from its bytes, stores that id and tree, and adds one to the counter.
    (c) Over a sequence of calls the counter grows by the number of calls
    whose id differs from the id of the call before. *)
Theorem FileCache_read_cache_correctness :
  forall (self : FileCache.t) (n : Z),
    (forall x c,
        FileCache.read FileCache.init n x c =
          (Some (fromstring x),
           {| FileCache.cached_id := Some c;
              FileCache.cached_data := Some (fromstring x) |},
           n + 1))
    /\ (forall x1 c1 x2 c2,
           let '(tree1, self1, n1) := FileCache.read self n x1 c1 in
           FileCache.read self1 n1 x2 c2 =
             if c2 =? c1 then (tree1, self1, n1)
             else (Some (fromstring x2),
                   {| FileCache.cached_id := Some c2;
                      FileCache.cached_data := Some (fromstring x2) |},
                   n1 + 1))
    /\ (forall calls,
           snd (FileCache.reads self n calls)
           = n + id_changes (FileCache.cached_id self) (map snd calls)).
Proof.
  intros self n. split; [|split].
  - intros x c. apply read_miss. discriminate.
  - intros x1 c1 x2 c2.
    pose proof (read_slot self n x1 c1) as [Hid Hdata].
    destruct (FileCache.read self n x1 c1) as [[tree1 self1] n1].
    cbn in Hid, Hdata.
    destruct (Z.eqb_spec c2 c1) as [->|Hne].
    + rewrite (read_hit self1 n1 x2 c1 Hid), Hdata. reflexivity.
    + apply read_miss. rewrite Hid. congruence.
  - intros calls. apply reads_counter.
Qed.

End FileCacheProperties.

(** ** Indexing *)

Lemma py_getitem_nth {A : Type} (l : list A) (i : Z) (x : A) :
  0 <= i -> nth_error l (Z.to_nat i) = Some x -> py_getitem l i = Ok x.
Proof.
  intros Hi Hnth. unfold py_getitem.
  assert (Hlt : (Z.to_nat i < List.length l)%nat).
  { apply nth_error_Some. congruence. }
  destruct (Z.ltb_spec i 0) as [?|_]; [lia|].
  destruct (Z.ltb_spec i 0) as [?|_]; [lia|].
  destruct (Z.leb_spec (Z.of_nat (List.length l)) i) as [?|_]; [lia|].
  cbn. rewrite Hnth. reflexivity.
Qed.

Lemma py_getitem_head {A : Type} (x : A) (l : list A) :
  py_getitem (x :: l) 0 = Ok x.
Proof. apply py_getitem_nth; [lia|reflexivity]. Qed.

(** ** The container cursor *)

Section XMLChunkCursorProperties.
Context {env : Env}.

(** A [Next] that leaves the cursor on a container has fetched the chunk
    at the new file index through the cache. *)
Lemma XMLChunkCursor_Next_on_container
    (self self' : XMLChunkCursor.t) (g g' : Globals) :
  XMLChunkCursor.Next self g = Ok (self', g') ->
  XMLChunkCursor.eof self' = false ->
  exists i chunk,
    XMLChunkCursor.file_index self = Some (i - 1)
    /\ XMLChunkCursor.file_index self' = Some i
    /\ i < Z.of_nat (List.length (data_source (XMLChunkCursor.table self)))
    /\ py_getitem (data_source (XMLChunkCursor.table self)) i = Ok chunk
    /\ (XMLChunkCursor.element_tree self', g') = file_cache_read g chunk i
    /\ XMLChunkCursor.table self' = XMLChunkCursor.table self.
Proof.
  unfold XMLChunkCursor.Next. intros HNext Heof.
  destruct (py_bool (XMLChunkCursor.single_file self)
            && py_bool (XMLChunkCursor.file_read self)).
  { inversion HNext; subst. discriminate. }
  destruct (XMLChunkCursor.file_index self) as [i|]; [|discriminate].
  destruct (Z.geb_spec (i + 1)
              (Z.of_nat (List.length (data_source (XMLChunkCursor.table self)))))
    as [?|Hlt].
  { inversion HNext; subst. discriminate. }
  destruct (py_getitem (data_source (XMLChunkCursor.table self)) (i + 1))
    as [chunk| |] eqn:Hget; cbn in HNext; try discriminate.
  destruct (file_cache_read g chunk (i + 1)) as [tree g1] eqn:Hread.
  inversion HNext; subst; clear HNext. cbn.
  exists (i + 1), chunk. repeat split; auto.
  f_equal. lia.
Qed.

(** C10. A pinned index at or past the end of the container list. When
    the index number has the [CONTAINER_INDEX] flag and the first
    constraint argument [k] is at least the number of containers, [Filter]
    does not raise and leaves the cursor at Eof without a fetch (tree,
    cache and parse counter are as before), and a further [Next] changes
    nothing: no container is yielded. *)
Theorem XMLChunkCursor_Filter_pinned_out_of_range
    (self : XMLChunkCursor.t) (g : Globals)
    (index_number k : Z) (rest : list Z) :
  Z.land index_number CONTAINER_INDEX <> 0 ->
  Z.of_nat (List.length (data_source (XMLChunkCursor.table self))) <= k ->
  exists self',
    XMLChunkCursor.Filter self g index_number (k :: rest) = Ok (self', g)
    /\ XMLChunkCursor.Eof self' = true
    /\ XMLChunkCursor.element_tree self' = XMLChunkCursor.element_tree self
    /\ XMLChunkCursor.Next self' g = Ok (self', g).
Proof.
  intros Hflag Hk. unfold XMLChunkCursor.Filter.
  destruct (Z.eqb_spec index_number 0) as [->|_];
    [rewrite Z.land_0_l in Hflag; contradiction|].
  destruct (Z.eqb_spec (Z.land index_number CONTAINER_INDEX) 0) as [?|_];
    [contradiction|].
  cbn [negb]. rewrite py_getitem_head. cbn [bind].
  unfold XMLChunkCursor.Next. cbn.
  destruct (Z.geb_spec (k - 1 + 1)
              (Z.of_nat (List.length (data_source (XMLChunkCursor.table self)))))
    as [_|?]; [|lia].
  eexists. split; [reflexivity|]. cbn.
  destruct (Z.geb_spec (k - 1 + 1)
              (Z.of_nat (List.length (data_source (XMLChunkCursor.table self)))))
    as [_|?]; [|lia].
  auto.
Qed.

(** C5, as amended. A pinned index [k] inside the container list. When the
    index number has the [CONTAINER_INDEX] flag and the first constraint
    argument [k] is the index of a container, [Filter] leaves the cursor on
    container [k], its tree the one the cache returns for the chunk at [k]
    under the id [k], and the next [Next] leaves the cursor at Eof without
    another fetch, whatever the number of containers. *)
Theorem XMLChunkCursor_Filter_pinned_in_range
    (self : XMLChunkCursor.t) (g : Globals)
    (index_number k : Z) (rest : list Z) (chunk : string) :
  Z.land index_number CONTAINER_INDEX <> 0 ->
  0 <= k ->
  nth_error (data_source (XMLChunkCursor.table self)) (Z.to_nat k) = Some chunk ->
  exists self1 g1,
    XMLChunkCursor.Filter self g index_number (k :: rest) = Ok (self1, g1)
    /\ XMLChunkCursor.Eof self1 = false
    /\ XMLChunkCursor.Rowid self1 = Some k
    /\ (XMLChunkCursor.current_row_value self1, g1) = file_cache_read g chunk k
    /\ XMLChunkCursor.Next self1 g1 = Ok (XMLChunkCursor.set_eof true self1, g1).
Proof.
  intros Hflag Hk Hnth. unfold XMLChunkCursor.Filter.
  destruct (Z.eqb_spec index_number 0) as [->|_];
    [rewrite Z.land_0_l in Hflag; contradiction|].
  destruct (Z.eqb_spec (Z.land index_number CONTAINER_INDEX) 0) as [?|_];
    [contradiction|].
  cbn [negb]. rewrite py_getitem_head. cbn [bind].
  assert (Hlt : (Z.to_nat k < List.length (data_source (XMLChunkCursor.table self)))%nat).
  { apply nth_error_Some. congruence. }
  unfold XMLChunkCursor.Next. cbn.
  destruct (Z.geb_spec (k - 1 + 1)
              (Z.of_nat (List.length (data_source (XMLChunkCursor.table self)))))
    as [?|_]; [lia|].
  replace (k - 1 + 1) with k by lia.
  rewrite (py_getitem_nth _ k chunk Hk Hnth). cbn [bind].
  destruct (file_cache_read g chunk k) as [tree g1].
  do 2 eexists. split; [reflexivity|]. cbn. auto.
Qed.

End XMLChunkCursorProperties.

(** ** The root cursor as a parent *)

Section PatentsCursorProperties.
Context {env : Env}.

Lemma PatentsCursor_laws : Cursor.laws (PatentsCursor.t * Globals).
Proof.
  split.
  - intros [c g]. cbn. unfold PatentsCursor.Next, XMLChunkCursor.Next.
    destruct (py_bool _ && py_bool _); [discriminate|].
    destruct (XMLChunkCursor.file_index _) as [i|]; [|discriminate].
    destruct (_ >=? _); [discriminate|].
    unfold py_getitem.
    destruct (_ || _); [discriminate|].
    destruct (nth_error _ _); [|discriminate].
    cbn. destruct (file_cache_read _ _ _). discriminate.
  - intros [c g] [c' g']. cbn.
    unfold PatentsCursor.Eof, PatentsCursor.Next, PatentsCursor_remaining.
    intros Heof HNext. rewrite Heof.
    destruct (XMLChunkCursor.Next (PatentsCursor.files_cursor c) g)
      as [[fc g1]| |] eqn:Hfc; cbn in HNext; try discriminate.
    inversion HNext; subst; clear HNext. cbn.
    destruct (XMLChunkCursor.eof fc) eqn:Hfceof; [lia|].
    destruct (XMLChunkCursor_Next_on_container _ _ _ _ Hfc Hfceof)
      as (i & chunk & Hi & Hi' & Hlt & _ & _ & Htable).
    rewrite Hi, Hi', Htable. lia.
Qed.



End PatentsCursorProperties.

(** ** Rows of a cursor *)

Section CursorRows.
Context {env : Env} {C : Type} {cursor : Cursor.ops C}.
Context {cursor_laws : Cursor.laws C}.

Lemma rows_from_fuel (fuel1 : nat) :
  forall (fuel2 : nat) (c : C),
    (Cursor.remaining c < fuel1)%nat ->
    (Cursor.remaining c < fuel2)%nat ->
    Cursor.rows_from fuel1 c = Cursor.rows_from fuel2 c.
Proof.
  induction fuel1 as [|fuel1 IH]; intros fuel2 c H1 H2; [lia|].
  destruct fuel2 as [|fuel2]; [lia|]. cbn [Cursor.rows_from].
  destruct (Cursor.Eof c) eqn:Heof; [reflexivity|].
  destruct (Cursor.Next c) as [c'| |] eqn:HNext; try reflexivity.
  pose proof (Cursor.Next_remaining _ _ Heof HNext).
  f_equal. apply IH; lia.
Qed.

Lemma rows_unfold (c : C) :
  Cursor.rows c =
    if Cursor.Eof c then []
    else c :: match Cursor.Next c with
              | Ok c' => Cursor.rows c'
              | _ => []
              end.
Proof.
  unfold Cursor.rows at 1. cbn [Cursor.rows_from].
  destruct (Cursor.Eof c) eqn:Heof; [reflexivity|].
  destruct (Cursor.Next c) as [c'| |] eqn:HNext; try reflexivity.
  pose proof (Cursor.Next_remaining _ _ Heof HNext).
  f_equal. apply rows_from_fuel; lia.
Qed.

(** Every row is a state in which [Eof] is false. *)
Lemma rows_from_not_Eof (fuel : nat) :
  forall c r : C, In r (Cursor.rows_from fuel c) -> Cursor.Eof r = false.
Proof.
  induction fuel as [|fuel IH]; intros c r Hin; [contradiction|].
  cbn [Cursor.rows_from] in Hin.
  destruct (Cursor.Eof c) eqn:Heof; [contradiction|].
  destruct Hin as [<-|Hin]; [exact Heof|].
  destruct (Cursor.Next c) as [c'| |]; try contradiction.
  exact (IH _ _ Hin).
Qed.

End CursorRows.

(** ** The nested cursor *)

Section NestedCursorProperties.
Context {env : Env} {P : Type} {parent : Cursor.ops P}.
Context {parent_laws : Cursor.laws P}.

Local Abbreviation child := (@PatentsElementsCursor.t env P).

Ltac fields :=
  cbn [PatentsElementsCursor.table PatentsElementsCursor.parent_cursor
       PatentsElementsCursor.elements PatentsElementsCursor.eof
       PatentsElementsCursor.element_index
       PatentsElementsCursor.extract_multiple
       PatentsElementsCursor.set_eof PatentsElementsCursor.set_elements
       PatentsElementsCursor.set_element_index
       PatentsElementsCursor.set_parent_cursor] in *.

Lemma extract_elements_parent (c : child) :
  PatentsElementsCursor.parent_cursor (PatentsElementsCursor.extract_elements c)
  = PatentsElementsCursor.parent_cursor c.
Proof.
  unfold PatentsElementsCursor.extract_elements.
  destruct (negb _); reflexivity.
Qed.

(** Fuel beyond what the parent has left is enough for the loop. *)
Lemma Next_loop_fuel_enough (fuel : nat) :
  forall c : child,
    (Cursor.remaining (PatentsElementsCursor.parent_cursor c) < fuel)%nat ->
    PatentsElementsCursor.Next_loop fuel c <> OutOfFuel.
Proof.
  induction fuel as [|fuel IH]; intros c Hfuel; [lia|].
  cbn [PatentsElementsCursor.Next_loop].
  destruct (Cursor.Eof (PatentsElementsCursor.parent_cursor c)) eqn:Heof;
    [discriminate|].
  cbv zeta. rewrite extract_elements_parent.
  assert (Hadvance :
    (p <- Cursor.Next (PatentsElementsCursor.parent_cursor c) ;;
     PatentsElementsCursor.Next_loop fuel
       (PatentsElementsCursor.set_elements None
          (PatentsElementsCursor.set_parent_cursor p
             (PatentsElementsCursor.extract_elements c)))) <> OutOfFuel).
  { destruct (Cursor.Next (PatentsElementsCursor.parent_cursor c))
      as [p| |] eqn:HNext; cbn [bind]; try discriminate.
    - apply IH. cbn.
      pose proof (Cursor.Next_remaining _ _ Heof HNext). lia.
    - exfalso. exact (Cursor.Next_fuel _ HNext). }
  destruct (negb _); [exact Hadvance|].
  destruct (_ <? _); [discriminate|exact Hadvance].
Qed.

(** More fuel does not change a result. *)
Lemma Next_loop_fuel_mono (fuel : nat) :
  forall (c : child) (fuel' : nat),
    PatentsElementsCursor.Next_loop fuel c <> OutOfFuel ->
    (fuel <= fuel')%nat ->
    PatentsElementsCursor.Next_loop fuel' c
    = PatentsElementsCursor.Next_loop fuel c.
Proof.
  induction fuel as [|fuel IH]; intros c fuel' Hres Hle;
    [cbn in Hres; congruence|].
  destruct fuel' as [|fuel']; [lia|].
  cbn [PatentsElementsCursor.Next_loop] in *.
  destruct (Cursor.Eof (PatentsElementsCursor.parent_cursor c));
    [reflexivity|].
  cbv zeta in *.
  destruct (negb _).
  - destruct (Cursor.Next _) as [p| |]; cbn [bind] in *; try reflexivity.
    apply IH; [assumption|lia].
  - destruct (_ <? _); [reflexivity|].
    destruct (Cursor.Next _) as [p| |]; cbn [bind] in *; try reflexivity.
    apply IH; [assumption|lia].
Qed.

Lemma Next_as_loop (c : child) (fuel : nat) :
  (Cursor.remaining (PatentsElementsCursor.parent_cursor c) < fuel)%nat ->
  PatentsElementsCursor.Next_loop fuel c = PatentsElementsCursor.Next c.
Proof.
  intros Hfuel. unfold PatentsElementsCursor.Next.
  apply Next_loop_fuel_mono; [|lia].
  apply Next_loop_fuel_enough. lia.
Qed.

Lemma Next_returns (c : child) : PatentsElementsCursor.Next c <> OutOfFuel.
Proof. apply Next_loop_fuel_enough. lia. Qed.

(** One turn of the loop, as an equation on [Next]. *)
Lemma Next_unfold (c : child) :
  PatentsElementsCursor.Next c =
    if Cursor.Eof (PatentsElementsCursor.parent_cursor c) then
      Ok (PatentsElementsCursor.set_eof true c)
    else
      let c1 := PatentsElementsCursor.extract_elements c in
      if truthy (PatentsElementsCursor.elements c1)
         && (PatentsElementsCursor.element_index c1 + 1
             <? PatentsElementsCursor.len_elements c1)
      then
        Ok (PatentsElementsCursor.set_eof false
              (PatentsElementsCursor.set_element_index
                 (PatentsElementsCursor.element_index c1 + 1) c1))
      else
        p <- Cursor.Next (PatentsElementsCursor.parent_cursor c) ;;
        PatentsElementsCursor.Next
          (PatentsElementsCursor.set_elements None
             (PatentsElementsCursor.set_parent_cursor p c1)).
Proof.
  unfold PatentsElementsCursor.Next at 1.
  cbn [PatentsElementsCursor.Next_loop].
  destruct (Cursor.Eof (PatentsElementsCursor.parent_cursor c)) eqn:Heof;
    [reflexivity|].
  cbv zeta. rewrite extract_elements_parent.
  assert (Hadvance :
    (p <- Cursor.Next (PatentsElementsCursor.parent_cursor c) ;;
     PatentsElementsCursor.Next_loop
       (Cursor.remaining (PatentsElementsCursor.parent_cursor c))
       (PatentsElementsCursor.set_elements None
          (PatentsElementsCursor.set_parent_cursor p
             (PatentsElementsCursor.extract_elements c))))
    = (p <- Cursor.Next (PatentsElementsCursor.parent_cursor c) ;;
       PatentsElementsCursor.Next
         (PatentsElementsCursor.set_elements None
            (PatentsElementsCursor.set_parent_cursor p
               (PatentsElementsCursor.extract_elements c))))).
  { destruct (Cursor.Next (PatentsElementsCursor.parent_cursor c))
      as [p| |] eqn:HNext; cbn [bind]; try reflexivity.
    apply Next_as_loop. cbn.
    exact (Cursor.Next_remaining _ _ Heof HNext). }
  destruct (truthy _); cbn [negb andb]; [|exact Hadvance].
  destruct (_ <? _); [reflexivity|exact Hadvance].
Qed.


Lemma extract_elements_index (c : child) :
  PatentsElementsCursor.settled c ->
  -1 <= PatentsElementsCursor.element_index
          (PatentsElementsCursor.extract_elements c).
Proof.
  unfold PatentsElementsCursor.extract_elements.
  intros [Hfalsy|[Htruthy Hindex]].
  - rewrite Hfalsy. cbn. lia.
  - rewrite Htruthy. cbn. lia.
Qed.

(** The loop keeps the cursor settled, and returns with [eof] false only
    on an element of a parent row. *)
Lemma Next_loop_settled (fuel : nat) :
  forall c c' : child,
    PatentsElementsCursor.settled c ->
    PatentsElementsCursor.Next_loop fuel c = Ok c' ->
    PatentsElementsCursor.settled c'
    /\ (PatentsElementsCursor.eof c' = false ->
        PatentsElementsCursor.on_element c'
        /\ Cursor.Eof (PatentsElementsCursor.parent_cursor c') = false).
Proof.
  induction fuel as [|fuel IH]; intros c c' Hc Hloop; [discriminate|].
  cbn [PatentsElementsCursor.Next_loop] in Hloop.
  destruct (Cursor.Eof (PatentsElementsCursor.parent_cursor c)) eqn:Heof.
  { inversion Hloop; subst. split; [exact Hc|]. cbn. discriminate. }
  cbv zeta in Hloop. rewrite extract_elements_parent in Hloop.
  pose proof (extract_elements_index c Hc) as Hindex.
  set (c1 := PatentsElementsCursor.extract_elements c) in *.
  assert (Hadvance :
    (p <- Cursor.Next (PatentsElementsCursor.parent_cursor c) ;;
     PatentsElementsCursor.Next_loop fuel
       (PatentsElementsCursor.set_elements None
          (PatentsElementsCursor.set_parent_cursor p c1))) = Ok c' ->
    PatentsElementsCursor.settled c'
    /\ (PatentsElementsCursor.eof c' = false ->
        PatentsElementsCursor.on_element c'
        /\ Cursor.Eof (PatentsElementsCursor.parent_cursor c') = false)).
  { destruct (Cursor.Next (PatentsElementsCursor.parent_cursor c)) as [p| |];
      cbn [bind]; try discriminate.
    apply IH. left. reflexivity. }
  destruct (truthy (PatentsElementsCursor.elements c1)) eqn:Htruthy;
    cbn [negb] in Hloop; [|exact (Hadvance Hloop)].
  destruct (Z.ltb_spec (PatentsElementsCursor.element_index c1 + 1)
              (PatentsElementsCursor.len_elements c1)) as [Hlt|_];
    [|exact (Hadvance Hloop)].
  inversion Hloop; subst; clear Hloop Hadvance.
  assert (Hon : PatentsElementsCursor.on_element
                  (PatentsElementsCursor.set_eof false
                     (PatentsElementsCursor.set_element_index
                        (PatentsElementsCursor.element_index c1 + 1) c1))).
  { split; cbn; [exact Htruthy|].
    unfold PatentsElementsCursor.len_elements in *. cbn. lia. }
  split; [right; exact Hon|]. intros _. split; [exact Hon|].
  cbn. subst c1. rewrite extract_elements_parent. exact Heof.
Qed.

Lemma Next_times_settled (n : nat) :
  forall c c' : child,
    PatentsElementsCursor.settled c ->
    PatentsElementsCursor.Next_times n c = Ok c' ->
    PatentsElementsCursor.settled c'.
Proof.
  induction n as [|n IH]; intros c c' Hc Htimes;
    cbn [PatentsElementsCursor.Next_times] in Htimes.
  - inversion Htimes; subst. exact Hc.
  - destruct (PatentsElementsCursor.Next c) as [c1| |] eqn:HNext;
      cbn [bind] in Htimes; try discriminate.
    apply (IH c1 c'); [|exact Htimes].
    exact (proj1 (Next_loop_settled _ _ _ Hc HNext)).
Qed.


(** *** The nested cursor keeps the laws of a parent *)

Lemma pending_fuel (extract : option Element -> option (list Element))
    (fuel1 : nat) :
  forall (fuel2 : nat) (p : P),
    (Cursor.remaining p < fuel1)%nat ->
    (Cursor.remaining p < fuel2)%nat ->
    pending extract fuel1 p = pending extract fuel2 p.
Proof.
  induction fuel1 as [|fuel1 IH]; intros fuel2 p H1 H2; [lia|].
  destruct fuel2 as [|fuel2]; [lia|]. cbn [pending].
  destruct (Cursor.Eof p) eqn:Heof; [reflexivity|].
  destruct (Cursor.Next p) as [p'| |] eqn:HNext; try reflexivity.
  pose proof (Cursor.Next_remaining _ _ Heof HNext).
  f_equal. apply IH; lia.
Qed.

Lemma extract_elements_extract_multiple (c : child) :
  PatentsElementsCursor.extract_multiple
    (PatentsElementsCursor.extract_elements c)
  = PatentsElementsCursor.extract_multiple c.
Proof.
  unfold PatentsElementsCursor.extract_elements.
  destruct (negb _); reflexivity.
Qed.

Lemma Next_loop_extract_multiple (fuel : nat) :
  forall c c' : child,
    PatentsElementsCursor.Next_loop fuel c = Ok c' ->
    PatentsElementsCursor.extract_multiple c'
    = PatentsElementsCursor.extract_multiple c.
Proof.
  induction fuel as [|fuel IH]; intros c c' Hloop; [discriminate|].
  cbn [PatentsElementsCursor.Next_loop] in Hloop.
  destruct (Cursor.Eof _); [inversion Hloop; reflexivity|].
  cbv zeta in Hloop.
  pose proof (extract_elements_extract_multiple c) as Hextract.
  destruct (negb _).
  - destruct (Cursor.Next _) as [p| |]; cbn [bind] in Hloop; try discriminate.
    etransitivity; [exact (IH _ _ Hloop)|]. cbn. exact Hextract.
  - destruct (_ <? _); [inversion Hloop; exact Hextract|].
    destruct (Cursor.Next _) as [p| |]; cbn [bind] in Hloop; try discriminate.
    etransitivity; [exact (IH _ _ Hloop)|]. cbn. exact Hextract.
Qed.

(** From a cursor that holds no elements, the loop ends on a cursor with
    no more rows to come than the parent rows will give. *)
Lemma Next_loop_remaining (fuel : nat) :
  forall c c' : child,
    truthy (PatentsElementsCursor.elements c) = false ->
    PatentsElementsCursor.Next_loop fuel c = Ok c' ->
    (PatentsIpcrCurcor_remaining c'
     <= pending (PatentsElementsCursor.extract_multiple c)
          (S (Cursor.remaining (PatentsElementsCursor.parent_cursor c)))
          (PatentsElementsCursor.parent_cursor c))%nat.
Proof.
  induction fuel as [|fuel IH]; intros c c' Hfalsy Hloop; [discriminate|].
  cbn [PatentsElementsCursor.Next_loop] in Hloop.
  cbn [pending].
  destruct (Cursor.Eof (PatentsElementsCursor.parent_cursor c)) eqn:Heof.
  { inversion Hloop; subst. unfold PatentsIpcrCurcor_remaining.
    fields. lia. }
  cbv zeta in Hloop. unfold PatentsElementsCursor.extract_elements in Hloop.
  rewrite Hfalsy in Hloop. cbn [negb] in Hloop.
  unfold PatentsElementsCursor.len_elements in Hloop. fields.
  set (p := PatentsElementsCursor.parent_cursor c) in *.
  set (extract := PatentsElementsCursor.extract_multiple c) in *.
  assert (Hadvance : forall elts,
    list_len (extract (Cursor.current_row_value p)) = O ->
    (q <- Cursor.Next p ;;
     PatentsElementsCursor.Next_loop fuel
       (PatentsElementsCursor.set_elements None
          (PatentsElementsCursor.set_parent_cursor q
             (PatentsElementsCursor.set_element_index (-1)
                (PatentsElementsCursor.set_elements elts c))))) = Ok c' ->
    (PatentsIpcrCurcor_remaining c'
     <= list_len (extract (Cursor.current_row_value p))
        + match Cursor.Next p with
          | Ok p' => pending extract (Cursor.remaining p) p'
          | _ => O
          end)%nat).
  { intros elts Hlen Hrest.
    destruct (Cursor.Next p) as [p'| |] eqn:HNext; cbn [bind] in Hrest;
      try discriminate.
    pose proof (Cursor.Next_remaining _ _ Heof HNext).
    apply IH in Hrest; [|reflexivity]. fields. fold extract in Hrest.
    rewrite (pending_fuel extract (Cursor.remaining p)
               (S (Cursor.remaining p')) p') by lia.
    lia. }
  destruct (extract (Cursor.current_row_value p)) as [[|x l]|] eqn:Hextract;
    cbn [truthy negb] in Hloop.
  - exact (Hadvance _ eq_refl Hloop).
  - cbn [List.length] in Hloop.
    destruct (Z.ltb_spec (-1 + 1) (Z.of_nat (S (List.length l))))
      as [_|?]; [|lia].
    inversion Hloop; subst; clear Hloop Hadvance.
    unfold PatentsIpcrCurcor_remaining, PatentsElementsCursor.len_elements.
    fields. fold p. fold extract. rewrite Heof.
    cbn [truthy list_len List.length].
    destruct (Cursor.Next p) as [p'| |] eqn:HNext; try lia.
    pose proof (Cursor.Next_remaining _ _ Heof HNext).
    rewrite (pending_fuel extract (Cursor.remaining p)
               (S (Cursor.remaining p')) p') by lia.
    lia.
  - exact (Hadvance _ eq_refl Hloop).
Qed.

Lemma PatentsIpcrCurcor_laws : Cursor.laws (@PatentsElementsCursor.t env P).
Proof.
  split.
  - exact Next_returns.
  - intros c c'.
    change (PatentsElementsCursor.eof c = false ->
            PatentsElementsCursor.Next c = Ok c' ->
            (PatentsIpcrCurcor_remaining c' < PatentsIpcrCurcor_remaining c)%nat).
    intros Heof HNext.
    destruct (truthy (PatentsElementsCursor.elements c)) eqn:Htruthy.
    + unfold PatentsElementsCursor.Next in HNext.
      cbn [PatentsElementsCursor.Next_loop] in HNext.
      unfold PatentsIpcrCurcor_remaining at 2. rewrite Heof, Htruthy.
      destruct (Cursor.Eof (PatentsElementsCursor.parent_cursor c)) eqn:HPeof.
      { inversion HNext; subst. unfold PatentsIpcrCurcor_remaining.
        fields. lia. }
      cbv zeta in HNext. unfold PatentsElementsCursor.extract_elements in HNext.
      repeat (rewrite Htruthy in HNext; cbn [negb] in HNext).
      destruct (Z.ltb_spec (PatentsElementsCursor.element_index c + 1)
                  (PatentsElementsCursor.len_elements c)) as [Hlt|Hge].
      * inversion HNext; subst; clear HNext.
        unfold PatentsIpcrCurcor_remaining, PatentsElementsCursor.len_elements.
        fields. rewrite Htruthy, HPeof.
        unfold PatentsElementsCursor.len_elements in Hlt. lia.
      * destruct (Cursor.Next (PatentsElementsCursor.parent_cursor c))
          as [p'| |] eqn:HPNext; cbn [bind] in HNext; try discriminate.
        apply Next_loop_remaining in HNext; [|reflexivity].
        fields. lia.
    + apply Next_loop_remaining in HNext; [|exact Htruthy].
      unfold PatentsIpcrCurcor_remaining at 2. rewrite Heof, Htruthy. lia.
Qed.


(** *** The rows of the nested cursor *)

#[local] Existing Instance PatentsIpcrCurcor_laws.

(** The rows from a cursor on element [element_index] of a parent row [p]:
    the elements of [p] from that index on, then the rows of the parent
    rows after [p]; given that the latter holds for the parent rows with
    less to come than [p]. *)
Lemma rows_on_element (p : P) :
  (forall c : child,
      (Cursor.remaining (PatentsElementsCursor.parent_cursor c)
       < Cursor.remaining p)%nat ->
      truthy (PatentsElementsCursor.elements c) = false ->
      map row_of
        (match PatentsElementsCursor.Next c with
         | Ok c1 => Cursor.rows c1
         | _ => []
         end)
      = flat_map (element_rows (PatentsElementsCursor.extract_multiple c))
          (Cursor.rows (PatentsElementsCursor.parent_cursor c))) ->
  Cursor.Eof p = false ->
  forall (k : nat) (c : child),
    PatentsElementsCursor.parent_cursor c = p ->
    PatentsElementsCursor.eof c = false ->
    truthy (PatentsElementsCursor.elements c) = true ->
    0 <= PatentsElementsCursor.element_index c ->
    PatentsElementsCursor.element_index c + 1 + Z.of_nat k
    = PatentsElementsCursor.len_elements c ->
    map row_of (Cursor.rows c)
    = (map (fun i => (p, PatentsElementsCursor.elements c, Z.of_nat i))
         (seq (Z.to_nat (PatentsElementsCursor.element_index c)) (S k))
       ++ flat_map (element_rows (PatentsElementsCursor.extract_multiple c))
            (match Cursor.Next p with
             | Ok p' => Cursor.rows p'
             | _ => []
             end))%list.
Proof.
  intros Hafter HPeof.
  induction k as [|k IH]; intros c Hp Heof Htruthy Hindex Hlen;
    rewrite rows_unfold;
    change (Cursor.Eof c) with (PatentsElementsCursor.eof c);
    change (Cursor.Next c) with (PatentsElementsCursor.Next c);
    rewrite Heof, Next_unfold, Hp, HPeof; cbv zeta;
    unfold PatentsElementsCursor.extract_elements;
    rewrite Htruthy; cbn [negb]; rewrite Htruthy; cbn [andb].
  - destruct (Z.ltb_spec (PatentsElementsCursor.element_index c + 1)
                (PatentsElementsCursor.len_elements c)) as [?|_]; [lia|].
    cbn [seq map app]. unfold row_of at 1. rewrite Hp, Z2Nat.id by lia.
    f_equal.
    destruct (Cursor.Next p) as [p'| |] eqn:HNext; cbn [bind]; try reflexivity.
    pose proof (Cursor.Next_remaining _ _ HPeof HNext).
    rewrite Hafter; [reflexivity| |reflexivity]. fields. lia.
  - destruct (Z.ltb_spec (PatentsElementsCursor.element_index c + 1)
                (PatentsElementsCursor.len_elements c)) as [_|?]; [|lia].
    cbn [seq map app]. unfold row_of at 1. rewrite Hp, Z2Nat.id by lia.
    f_equal.
    rewrite IH; fields; unfold PatentsElementsCursor.len_elements in *;
      fields; try assumption; try lia.
    replace (Z.to_nat (PatentsElementsCursor.element_index c + 1))
      with (S (Z.to_nat (PatentsElementsCursor.element_index c))) by lia.
    reflexivity.
Qed.

(** The rows of a nested cursor that holds no elements yet: the element
    rows of each parent row, in order. *)
Lemma rows_of_parent_rows (n : nat) :
  forall c : child,
    (Cursor.remaining (PatentsElementsCursor.parent_cursor c) < n)%nat ->
    truthy (PatentsElementsCursor.elements c) = false ->
    map row_of
      (match PatentsElementsCursor.Next c with
       | Ok c1 => Cursor.rows c1
       | _ => []
       end)
    = flat_map (element_rows (PatentsElementsCursor.extract_multiple c))
        (Cursor.rows (PatentsElementsCursor.parent_cursor c)).
Proof.
  induction n as [|n IH]; intros c Hn Hfalsy; [lia|].
  set (p := PatentsElementsCursor.parent_cursor c) in *.
  set (extract := PatentsElementsCursor.extract_multiple c) in *.
  rewrite Next_unfold, (rows_unfold p). fold p.
  destruct (Cursor.Eof p) eqn:HPeof.
  { rewrite rows_unfold. reflexivity. }
  cbv zeta. unfold PatentsElementsCursor.extract_elements.
  rewrite Hfalsy. cbn [negb]. fields. fold p. fold extract.
  cbn [flat_map]. unfold element_rows at 1.
  unfold PatentsElementsCursor.len_elements. fields.
  assert (Hadvance : forall elts,
    map row_of
      match
        (q <- Cursor.Next p ;;
         PatentsElementsCursor.Next
           (PatentsElementsCursor.set_elements None
              (PatentsElementsCursor.set_parent_cursor q
                 (PatentsElementsCursor.set_element_index (-1)
                    (PatentsElementsCursor.set_elements elts c)))))
      with
      | Ok c1 => Cursor.rows c1
      | _ => []
      end
    = flat_map (element_rows extract)
        match Cursor.Next p with
        | Ok p' => Cursor.rows p'
        | _ => []
        end).
  { intros elts.
    destruct (Cursor.Next p) as [p'| |] eqn:HNext; cbn [bind]; try reflexivity.
    pose proof (Cursor.Next_remaining _ _ HPeof HNext).
    apply IH; fields; [lia|reflexivity]. }
  destruct (extract (Cursor.current_row_value p)) as [[|x l]|] eqn:Hextract;
    cbn [truthy andb list_len seq map app]; try apply Hadvance.
  cbn [List.length].
  destruct (Z.ltb_spec (-1 + 1) (Z.of_nat (S (List.length l)))) as [_|?];
    [|lia].
  rewrite (rows_on_element p) with (k := List.length l); fields;
    try reflexivity; try assumption; try lia.
  - intros c' Hless Hfalsy'. apply IH; [lia|assumption].
  - unfold PatentsElementsCursor.len_elements. fields.
    cbn [List.length]. lia.
Qed.


(** C2. The child-skip invariant, for a cursor nested in any parent cursor
    that keeps the laws of a parent (the root cursor does, and so does a
    nested cursor, by [PatentsIpcrCurcor_laws]). Take the cursor between
    two calls of [Next]: it holds no elements, or it is on an element.
    (a) [Next] returns or raises: the loop ends.
    (b) When [Next] returns, the cursor is again as described, and when it
    returns with [eof] false, the cursor holds a list that is not empty,
    with 0 <= element_index < length of the list, and its parent is on a
    row. The same holds after any number of calls.
    (c) Started with no elements held, the rows the cursor is on, from the
    first [Next] until Eof, are the elements of the parent rows, parent row
    after parent row, with the indices 0, 1, ... within each: a parent row
    with an empty extraction gives no row, and the first element of the
    next parent row that has elements comes with index 0. *)
Theorem nested_cursor_Next_rows (c : child) :
  PatentsElementsCursor.settled c ->
  PatentsElementsCursor.Next c <> OutOfFuel
  /\ (forall (n : nat) (c1 c2 : child),
         PatentsElementsCursor.Next_times n c = Ok c1 ->
         PatentsElementsCursor.Next c1 = Ok c2 ->
         PatentsElementsCursor.settled c2
         /\ (PatentsElementsCursor.Eof c2 = false ->
             PatentsElementsCursor.on_element c2
             /\ Cursor.Eof (PatentsElementsCursor.parent_cursor c2) = false))
  /\ (truthy (PatentsElementsCursor.elements c) = false ->
      map row_of
        (match PatentsElementsCursor.Next c with
         | Ok c1 => Cursor.rows c1
         | _ => []
         end)
      = flat_map (element_rows (PatentsElementsCursor.extract_multiple c))
          (Cursor.rows (PatentsElementsCursor.parent_cursor c))).
Proof.
  intros Hsettled. split; [apply Next_returns|split].
  - intros n c1 c2 Htimes HNext.
    refine (Next_loop_settled _ c1 c2 _ HNext).
    exact (Next_times_settled n c c1 Hsettled Htimes).
  - apply (rows_of_parent_rows
             (S (Cursor.remaining (PatentsElementsCursor.parent_cursor c)))).
    lia.
Qed.

End NestedCursorProperties.

(** A cursor nested in a nested cursor keeps the laws of a parent as
    well, and so on at any depth: the nested cursors over the root cursor
    form chains to which [nested_cursor_Next_rows] applies. *)
Corollary nested_twice_laws {env : Env} :
  Cursor.laws
    (@PatentsElementsCursor.t env
       (@PatentsElementsCursor.t env (PatentsCursor.t * Globals))).
Proof.
  apply @PatentsIpcrCurcor_laws. apply @PatentsIpcrCurcor_laws.
  exact PatentsCursor_laws.
Qed.

(** ** Row ids of the nested cursor *)

Lemma pack_shiftr (p e : Z) :
  0 <= e < 2 ^ 14 -> Z.shiftr (Z.lor (Z.shiftl p 14) e) 14 = p.
Proof.
  intros He.
  rewrite Z.shiftr_lor, Z.shiftr_shiftl_l by lia.
  rewrite (Z.shiftr_div_pow2 e) by lia.
  rewrite (Z.div_small e) by lia.
  rewrite Z.lor_0_r. reflexivity.
Qed.

Lemma pack_land (p e : Z) :
  0 <= e < 2 ^ 14 -> Z.land (Z.lor (Z.shiftl p 14) e) (2 ^ 14 - 1) = e.
Proof.
  intros He.
  replace (2 ^ 14 - 1) with (Z.ones 14) by reflexivity.
  rewrite Z.land_lor_distr_l, !Z.land_ones by lia.
  rewrite Z.shiftl_mul_pow2 by lia.
  rewrite Z.mod_mul by lia.
  rewrite (Z.mod_small e) by lia.
  reflexivity.
Qed.

Section RowidProperties.
Context {env : Env} {P : Type} {parent : Cursor.ops P}.

(** C4. Row-id packing. For a nested cursor whose parent has row id [p]
    (of either sign) and whose element index [e] has 0 <= e < 2^14:
    [Rowid] is [(p << 14) | e]; shifting it right by 14 gives [p] back and
    masking its low 14 bits gives [e] back; and any cursor in that range
    with the same [Rowid] has the same parent row id and element index. *)
Theorem PatentsIpcrCurcor_Rowid_packing
    (c : @PatentsElementsCursor.t env P) (p e : Z) :
  Cursor.Rowid (PatentsElementsCursor.parent_cursor c) = p ->
  PatentsElementsCursor.element_index c = e ->
  0 <= e < 2 ^ 14 ->
  PatentsIpcrCurcor.Rowid c = Z.lor (Z.shiftl p 14) e
  /\ Z.shiftr (PatentsIpcrCurcor.Rowid c) 14 = p
  /\ Z.land (PatentsIpcrCurcor.Rowid c) (2 ^ 14 - 1) = e
  /\ (forall c' : @PatentsElementsCursor.t env P,
         0 <= PatentsElementsCursor.element_index c' < 2 ^ 14 ->
         PatentsIpcrCurcor.Rowid c' = PatentsIpcrCurcor.Rowid c ->
         Cursor.Rowid (PatentsElementsCursor.parent_cursor c') = p
         /\ PatentsElementsCursor.element_index c' = e).
Proof.
  intros Hp He Hrange. unfold PatentsIpcrCurcor.Rowid. rewrite Hp, He.
  split; [reflexivity|].
  split; [apply pack_shiftr; exact Hrange|].
  split; [apply pack_land; exact Hrange|].
  intros c' Hrange' Hsame. split.
  - rewrite <- (pack_shiftr
                  (Cursor.Rowid (PatentsElementsCursor.parent_cursor c'))
                  (PatentsElementsCursor.element_index c') Hrange').
    rewrite Hsame. apply pack_shiftr. exact Hrange.
  - rewrite <- (pack_land
                  (Cursor.Rowid (PatentsElementsCursor.parent_cursor c'))
                  (PatentsElementsCursor.element_index c') Hrange').
    rewrite Hsame. apply pack_land. exact Hrange.
Qed.

End RowidProperties.
(** ** The name pattern *)

Section RegexProperties.

Lemma prefix_split (p : string) :
  forall s : string,
    prefix p s = true -> s = p ++ string_drop (String.length p) s.
Proof.
  induction p as [|a p IH]; intros s Hprefix; [reflexivity|].
  destruct s as [|b s]; [discriminate|]. cbn in *.
  destruct (ascii_dec a b) as [->|]; [|discriminate].
  f_equal. apply IH. exact Hprefix.
Qed.

Lemma prefix_app (p s : string) : prefix p (p ++ s) = true.
Proof.
  induction p as [|a p IH]; cbn; [destruct s; reflexivity|].
  destruct (ascii_dec a a); [exact IH|contradiction].
Qed.

Lemma string_drop_app (p s : string) :
  string_drop (String.length p) (p ++ s) = s.
Proof. induction p as [|a p IH]; cbn; [destruct s; reflexivity|exact IH]. Qed.

Lemma until_quote_Some (s v : string) :
  until_quote s = Some v ->
  quote_free v = true /\ exists post, s = v ++ String dquote post.
Proof.
  revert v. induction s as [|c s IH]; intros v Huntil; [discriminate|].
  cbn [until_quote] in Huntil.
  destruct (Ascii.eqb_spec c dquote) as [->|Hc].
  - inversion Huntil; subst. split; [reflexivity|]. exists s. reflexivity.
  - destruct (until_quote s) as [v'|] eqn:Hs; cbn [option_map] in Huntil;
      [|discriminate].
    inversion Huntil; subst. destruct (IH v' eq_refl) as [Hfree [post ->]].
    split; [|exists post; reflexivity].
    cbn [quote_free].
    destruct (Ascii.eqb_spec c dquote); [contradiction|exact Hfree].
Qed.

Lemma until_quote_app (v post : string) :
  quote_free v = true -> until_quote (v ++ String dquote post) = Some v.
Proof.
  induction v as [|c v IH]; cbn [quote_free append until_quote]; intros Hfree.
  - rewrite Ascii.eqb_refl. reflexivity.
  - destruct (Ascii.eqb c dquote); [discriminate|].
    cbn [negb andb] in Hfree. rewrite (IH Hfree). reflexivity.
Qed.

Lemma match_here_Some (s v : string) :
  match_here s = Some v ->
  v <> EmptyString /\ quote_free v = true
  /\ exists post, s = file_attr_open ++ v ++ String dquote post.
Proof.
  unfold match_here. intros Hmatch.
  destruct (prefix file_attr_open s) eqn:Hprefix; [|discriminate].
  apply prefix_split in Hprefix.
  destruct (until_quote (string_drop (String.length file_attr_open) s))
    as [[|c v']|] eqn:Huntil; try discriminate.
  inversion Hmatch; subst.
  destruct (until_quote_Some _ _ Huntil) as [Hfree [post Hpost]].
  split; [discriminate|]. split; [exact Hfree|].
  exists post. rewrite Hprefix at 1. rewrite Hpost. reflexivity.
Qed.

(** [re_search] finds a name exactly in the strings that hold a name
    attribute. *)
Lemma re_search_has_name_attribute (s : string) :
  re_search s <> None <-> has_name_attribute s.
Proof.
  split.
  - induction s as [|c s IH]; cbn [re_search].
    + destruct (match_here EmptyString) eqn:Hmatch; [discriminate|].
      intros Hsearch. contradiction.
    + destruct (match_here (String c s)) as [v|] eqn:Hmatch.
      * intros _. destruct (match_here_Some _ _ Hmatch)
          as (Hne & Hfree & post & Hs).
        exists EmptyString, v, post. auto.
      * intros Hsearch. destruct (IH Hsearch)
          as (pre & v & post & Hs & Hne & Hfree).
        exists (String c pre), v, post. rewrite Hs. auto.
  - intros (pre & v & post & Hs & Hne & Hfree). subst s.
    induction pre as [|c pre IH].
    + assert (Hmatch : match_here
                (file_attr_open ++ v ++ String dquote post) = Some v).
      { unfold match_here. rewrite prefix_app, string_drop_app.
        rewrite (until_quote_app v post Hfree).
        destruct v; [contradiction|reflexivity]. }
      cbn [append]. destruct (file_attr_open ++ v ++ String dquote post);
        cbn [re_search]; rewrite Hmatch; discriminate.
    + cbn [append re_search].
      destruct (match_here _); [discriminate|exact IH].
Qed.

Lemma chunk_name_Some (xml_info : string) :
  chunk_name xml_info <> None <-> named xml_info.
Proof. apply re_search_has_name_attribute. Qed.

Lemma chunk_name_None (xml_info : string) :
  chunk_name xml_info = None <-> ~ named xml_info.
Proof.
  unfold chunk_name, named. rewrite <- re_search_has_name_attribute.
  destruct (re_search (string_take 200 xml_info)); split; intros H.
  - discriminate.
  - exfalso. apply H. discriminate.
  - intros Hne. apply Hne. reflexivity.
  - reflexivity.
Qed.

End RegexProperties.

(** ** Discovery of the containers *)

Section ZipFilesProperties.

Lemma with_chunks_nil (self : ZipFiles.t) : with_chunks self [] = self.
Proof.
  destruct self. unfold with_chunks. cbn. rewrite !app_nil_r. reflexivity.
Qed.

Lemma with_chunks_app (self : ZipFiles.t) (xs ys : list string) :
  with_chunks (with_chunks self xs) ys = with_chunks self (xs ++ ys)%list.
Proof.
  unfold with_chunks. cbn. rewrite map_app, !app_assoc. reflexivity.
Qed.

Lemma collect_paths_spec (fs : FileSystem) (directory : string)
    (sample_container : string -> bool) (names : list string) :
  forall self : ZipFiles.t,
    ZipFiles.collect_paths fs directory sample_container names self =
      {| ZipFiles.file_path :=
           (ZipFiles.file_path self
            ++ filter (fun path => isfile fs path && sample_container path)
                 (map (path_join directory) names))%list;
         ZipFiles.unique_patent_xml_files :=
           ZipFiles.unique_patent_xml_files self;
         ZipFiles.patent_file_name := ZipFiles.patent_file_name self;
         ZipFiles.sample := ZipFiles.sample self |}.
Proof.
  induction names as [|file_name rest IH]; intros self;
    cbn [ZipFiles.collect_paths map filter].
  - rewrite app_nil_r. destruct self; reflexivity.
  - destruct (isfile fs (path_join directory file_name)); cbn [negb andb].
    + destruct (sample_container (path_join directory file_name));
        cbn [negb]; rewrite IH; cbn; [|reflexivity].
      rewrite <- app_assoc. reflexivity.
    + apply IH.
Qed.

(** The loop over the pieces of a member: it appends every piece that is
    not empty, or raises at one without a name. *)
Lemma read_chunks_cases (xml_files : list string) :
  forall self : ZipFiles.t,
    (Forall named (filter nonempty xml_files)
     /\ ZipFiles.read_chunks xml_files self
        = Ok (with_chunks self (filter nonempty xml_files)))
    \/ (Exists (fun xml_info => ~ named xml_info)
          (filter nonempty xml_files)
        /\ ZipFiles.read_chunks xml_files self = Raise AttributeError).
Proof.
  induction xml_files as [|xml_info rest IH]; intros self;
    cbn [ZipFiles.read_chunks filter].
  - left. split; [constructor|]. rewrite with_chunks_nil. reflexivity.
  - replace (nonempty xml_info)
      with (negb (String.length xml_info =? 0)%nat) by reflexivity.
    destruct (String.length xml_info =? 0)%nat; cbn [negb]; [apply IH|].
    fold (chunk_name xml_info).
    destruct (chunk_name xml_info) as [name|] eqn:Hname.
    + match goal with
      | |- context [ZipFiles.read_chunks rest ?s] =>
          destruct (IH s) as [[Hall Hok]|[Hex Hraise]]
      end.
      * left. split.
        { constructor; [|exact Hall].
          apply chunk_name_Some. congruence. }
        rewrite Hok. unfold with_chunks. cbn. unfold name_or_empty at 2.
        rewrite Hname, <- !app_assoc. reflexivity.
      * right. split; [apply Exists_cons_tl; exact Hex|exact Hraise].
    + right. split; [|reflexivity].
      apply Exists_cons_hd, chunk_name_None, Hname.
Qed.

(** The loop over the archives: it appends the fragments of every archive,
    or raises at the first archive with a fault. *)
Lemma read_archives_cases (fs : FileSystem) (paths : list string) :
  forall self : ZipFiles.t,
    (Forall (fun path => well_formed_archive (ZipFile fs path)) paths
     /\ ZipFiles.read_archives fs paths self
        = Ok (with_chunks self
                (flat_map (fun path => chunks_of (ZipFile fs path)) paths)))
    \/ (Exists (fun path => discovery_fault (ZipFile fs path)) paths
        /\ exists e, ZipFiles.read_archives fs paths self = Raise e
                     /\ (e = ValueError \/ e = AttributeError)).
Proof.
  induction paths as [|path rest IH]; intros self;
    cbn [ZipFiles.read_archives flat_map].
  - left. split; [constructor|]. rewrite with_chunks_nil. reflexivity.
  - fold (xml_members (ZipFile fs path)).
    assert (Hfault : List.length (xml_members (ZipFile fs path)) <> 1%nat ->
      Exists (fun path => discovery_fault (ZipFile fs path)) (path :: rest)
      /\ exists e, Raise ValueError = @Raise ZipFiles.t e
                   /\ (e = ValueError \/ e = AttributeError)).
    { intros Hlen. split; [apply Exists_cons_hd; left; exact Hlen|].
      exists ValueError. auto. }
    unfold chunks_of at 1.
    destruct (xml_members (ZipFile fs path)) as [|file_name [|? ?]] eqn:Hxml;
      [right; apply Hfault; cbn; lia| |right; apply Hfault; cbn; lia].
    clear Hfault.
    destruct (read_chunks_cases
                (split (read_decode (ZipFile fs path) file_name) XML_DELIMITER)
                self) as [[Hall Hok]|[Hex Hraise]].
    + rewrite Hok. cbn [bind].
      match goal with
      | |- context [ZipFiles.read_archives fs rest ?s] =>
          destruct (IH s) as [[Hall' Hok']|[Hex' Hraise']]
      end.
      * left. split.
        { constructor; [|exact Hall'].
          unfold well_formed_archive, chunks_of. rewrite Hxml.
          split; [reflexivity|exact Hall]. }
        rewrite Hok', with_chunks_app. reflexivity.
      * right. split; [apply Exists_cons_tl; exact Hex'|exact Hraise'].
    + rewrite Hraise. cbn [bind]. right. split.
      * apply Exists_cons_hd. right. unfold chunks_of. rewrite Hxml. exact Hex.
      * exists AttributeError. auto.
Qed.

Lemma well_formed_no_fault (z : ZipArchive) :
  well_formed_archive z -> discovery_fault z -> False.
Proof.
  intros [Hone Hall] [Hlen|Hex]; [contradiction|].
  rewrite Forall_forall in Hall. rewrite Exists_exists in Hex.
  destruct Hex as (xml_info & Hin & Hnone).
  exact (Hnone (Hall xml_info Hin)).
Qed.


Lemma names_of_chunks (chunks : list string) :
  Forall named chunks ->
  map Some (map name_or_empty chunks) = map chunk_name chunks.
Proof.
  induction 1 as [|xml_info rest Hname _ IH]; [reflexivity|].
  cbn [map]. rewrite IH. unfold name_or_empty.
  apply chunk_name_Some in Hname.
  destruct (chunk_name xml_info); [reflexivity|contradiction].
Qed.

Lemma well_formed_chunks (fs : FileSystem) (paths : list string) :
  Forall (fun path => well_formed_archive (ZipFile fs path)) paths ->
  Forall named (flat_map (fun path => chunks_of (ZipFile fs path)) paths).
Proof.
  induction 1 as [|path rest [_ Hall] _ IH]; [constructor|].
  cbn [flat_map]. apply Forall_app. split; assumption.
Qed.

Lemma init_as_read_archives (fs : FileSystem) (directory : string)
    (sample_container : string -> bool) :
  ZipFiles.init fs directory sample_container =
    ZipFiles.read_archives fs
      (selected_paths fs directory sample_container)
      {| ZipFiles.file_path := selected_paths fs directory sample_container;
         ZipFiles.unique_patent_xml_files := [];
         ZipFiles.patent_file_name := [];
         ZipFiles.sample := sample_container |}.
Proof.
  unfold ZipFiles.init. rewrite collect_paths_spec. reflexivity.
Qed.

(** C7. Discovery faults are fatal. If one of the archives discovery opens
    has a number of XML members other than one, or a fragment that is not
    empty and has no name attribute (file= and a quoted value that is not
    empty) in its first 200 characters, then [ZipFiles.__init__] raises:
    [ValueError] from the unpacking of the member list, or [AttributeError]
    from the missing match. No container list is produced, and neither the
    archive nor the fragment is passed over. *)
Theorem ZipFiles_init_discovery_fault
    (fs : FileSystem) (directory : string)
    (sample_container : string -> bool) (path : string) :
  In path (selected_paths fs directory sample_container) ->
  discovery_fault (ZipFile fs path) ->
  exists e,
    ZipFiles.init fs directory sample_container = Raise e
    /\ (e = ValueError \/ e = AttributeError).
Proof.
  intros Hin Hfault. rewrite init_as_read_archives.
  match goal with
  | |- context [ZipFiles.read_archives fs ?paths ?s] =>
      destruct (read_archives_cases fs paths s) as [[Hall _]|[_ Hraise]]
  end.
  - exfalso. rewrite Forall_forall in Hall.
    exact (well_formed_no_fault _ (Hall path Hin) Hfault).
  - exact Hraise.
Qed.

(** C8, as amended. The container count. If every archive discovery opens
    is well formed, [ZipFiles.__init__] returns, and: the containers are
    the fragments that are not empty, archive after archive, in order;
    the names are the names found in these fragments, one per fragment and
    in the same order, repeated when two fragments carry the same name;
    so the name list, the container list and the container iterator have
    the length of the list of fragments. *)
Theorem ZipFiles_init_container_count
    (fs : FileSystem) (directory : string)
    (sample_container : string -> bool) :
  Forall (fun path => well_formed_archive (ZipFile fs path))
    (selected_paths fs directory sample_container) ->
  exists self : ZipFiles.t,
    ZipFiles.init fs directory sample_container = Ok self
    /\ ZipFiles.get_xml_files_array self
       = flat_map (fun path => chunks_of (ZipFile fs path))
           (selected_paths fs directory sample_container)
    /\ map Some (ZipFiles.patent_file_name self)
       = map chunk_name (ZipFiles.get_xml_files_array self)
    /\ List.length (ZipFiles.patent_file_name self)
       = List.length (ZipFiles.get_xml_files_array self)
    /\ ZipFiles.get_container_iterator self
       = map Z.of_nat
           (seq 0 (List.length
                     (flat_map (fun path => chunks_of (ZipFile fs path))
                        (selected_paths fs directory sample_container)))).
Proof.
  intros Hall. rewrite init_as_read_archives.
  match goal with
  | |- context [ZipFiles.read_archives fs ?paths ?s] =>
      destruct (read_archives_cases fs paths s) as [[_ Hok]|[Hex _]]
  end.
  - eexists. split; [exact Hok|].
    unfold ZipFiles.get_container_iterator, ZipFiles.get_xml_files_array.
    cbn. split; [reflexivity|]. split; [|split; [|reflexivity]].
    + apply names_of_chunks, well_formed_chunks, Hall.
    + apply length_map.
  - exfalso. rewrite Forall_forall in Hall. rewrite Exists_exists in Hex.
    destruct Hex as (path & Hin & Hfault).
    exact (well_formed_no_fault _ (Hall path Hin) Hfault).
Qed.

End ZipFilesProperties.

(** ** The cursor over delimited text *)

Section CsvCursorProperties.

(** [Filter] passes over one record, the header, and stops on the record
    after it, with row id 0. *)
Lemma CsvCursor_Filter_first_row
    (self : CsvCursor.t) (header row : list string)
    (rest : list (list string)) :
  CsvCursor.records (CsvCursor.table self) = header :: row :: rest ->
  row <> [] ->
  CsvCursor.Filter self =
    Ok {| CsvCursor.table := CsvCursor.table self;
          CsvCursor.eof := false;
          CsvCursor.item_index := 0;
          CsvCursor.row_value := Some row;
          CsvCursor.reader := Some rest |}.
Proof.
  intros Hrecords Hrow. unfold CsvCursor.Filter. cbn. rewrite Hrecords.
  cbn. unfold CsvCursor.Next. cbn.
  destruct row as [|field fields]; [contradiction|reflexivity].
Qed.

(** [Next] on a record that is not empty: the row id grows by one. *)
Lemma CsvCursor_Next_row
    (self : CsvCursor.t) (row : list string) (rest : list (list string)) :
  CsvCursor.reader self = Some (row :: rest) ->
  row <> [] ->
  CsvCursor.Next self =
    Ok {| CsvCursor.table := CsvCursor.table self;
          CsvCursor.eof := CsvCursor.eof self;
          CsvCursor.item_index := CsvCursor.item_index self + 1;
          CsvCursor.row_value := Some row;
          CsvCursor.reader := Some rest |}.
Proof.
  intros Hreader Hrow. unfold CsvCursor.Next. rewrite Hreader. cbn.
  destruct row as [|field fields]; [contradiction|reflexivity].
Qed.

(** [Next] at the end of the input: Eof. *)
Lemma CsvCursor_Next_end (self : CsvCursor.t) :
  CsvCursor.reader self = Some [] ->
  CsvCursor.Next self =
    Ok {| CsvCursor.table := CsvCursor.table self;
          CsvCursor.eof := true;
          CsvCursor.item_index := CsvCursor.item_index self;
          CsvCursor.row_value := None;
          CsvCursor.reader := Some [] |}.
Proof. intros Hreader. unfold CsvCursor.Next. rewrite Hreader. reflexivity. Qed.

(** [Next] on an empty record, which the reader yields for an empty line:
    Eof is set although the reader has not reached the end of the input. *)
Lemma CsvCursor_Next_empty_record
    (self : CsvCursor.t) (rest : list (list string)) :
  CsvCursor.reader self = Some ([] :: rest) ->
  CsvCursor.Next self =
    Ok {| CsvCursor.table := CsvCursor.table self;
          CsvCursor.eof := true;
          CsvCursor.item_index := CsvCursor.item_index self;
          CsvCursor.row_value := Some [];
          CsvCursor.reader := Some rest |}.
Proof. intros Hreader. unfold CsvCursor.Next. rewrite Hreader. reflexivity. Qed.

End CsvCursorProperties.

(** ** The foreign key of the nested cursor *)

Section ForeignKeyProperties.
Context {env : Env}.

Lemma XMLChunkCursor_Filter_on_container
    (self self' : XMLChunkCursor.t) (g g' : Globals)
    (index_number : Z) (constraint_args : list Z) :
  XMLChunkCursor.Filter self g index_number constraint_args = Ok (self', g') ->
  XMLChunkCursor.eof self' = false ->
  exists i chunk,
    XMLChunkCursor.file_index self' = Some i
    /\ py_getitem (data_source (XMLChunkCursor.table self)) i = Ok chunk
    /\ (XMLChunkCursor.element_tree self', g') = file_cache_read g chunk i.
Proof.
  unfold XMLChunkCursor.Filter. intros HFilter Heof.
  match type of HFilter with
  | bind ?pre _ = _ =>
      assert (Htable : forall s, pre = Ok s ->
                XMLChunkCursor.table s = XMLChunkCursor.table self);
      [|destruct pre as [s| |]; cbn [bind] in HFilter; try discriminate]
  end.
  { intros s. destruct (index_number =? 0).
    - intros H; inversion H; reflexivity.
    - destruct (negb _).
      + destruct (py_getitem constraint_args 0); cbn [bind];
          intros H; inversion H; reflexivity.
      + intros H; inversion H; reflexivity. }
  destruct (XMLChunkCursor_Next_on_container _ _ _ _ HFilter Heof)
    as (i & chunk & _ & Hi & _ & Hget & Hread & _).
  rewrite (Htable s eq_refl) in Hget.
  exists i, chunk. auto.
Qed.

(** C6, as amended. The foreign key column. Let the parent of a nested
    cursor be a root cursor that a [Next] or a [Filter] has left on a row.
    Then that row is the tree the cache returned for the chunk at some
    index [i] of the container list, and column 2 (patent_id) of the
    nested cursor is the integer [i]: the ordinal index of the container
    of the parent row, which is what [container_id] returns. It is not a
    name, and it is not read off the parent's [Rowid]. *)
Theorem PatentsIpcrCurcor_Column_patent_id
    (c : @PatentsElementsCursor.t env (PatentsCursor.t * Globals))
    (pc : PatentsCursor.t) (g : Globals) :
  arrives pc g (PatentsElementsCursor.parent_cursor c) ->
  Cursor.Eof (PatentsElementsCursor.parent_cursor c) = false ->
  exists i chunk,
    py_getitem
      (data_source (XMLChunkCursor.table (PatentsCursor.files_cursor pc))) i
    = Ok chunk
    /\ (Cursor.current_row_value (PatentsElementsCursor.parent_cursor c),
        snd (PatentsElementsCursor.parent_cursor c))
       = file_cache_read g chunk i
    /\ Cursor.container_id (PatentsElementsCursor.parent_cursor c) = Some i
    /\ PatentsIpcrCurcor.Column c 2 = Ok (VInt i).
Proof.
  destruct (PatentsElementsCursor.parent_cursor c) as [pc' g'] eqn:Hparent.
  unfold PatentsIpcrCurcor.Column. rewrite Hparent. cbn.
  unfold PatentsCursor.Eof, PatentsCursor.container_id,
    PatentsCursor.current_row_value, XMLChunkCursor.Rowid.
  intros [HNext|(index_number & constraint_args & HFilter)] Heof.
  - unfold PatentsCursor.Next in HNext.
    destruct (XMLChunkCursor.Next (PatentsCursor.files_cursor pc) g)
      as [[fc g1]| |] eqn:Hfc; cbn [bind] in HNext; try discriminate.
    inversion HNext; subst; clear HNext. cbn in *.
    destruct (XMLChunkCursor_Next_on_container _ _ _ _ Hfc Heof)
      as (i & chunk & _ & Hi & _ & Hget & Hread & _).
    exists i, chunk. rewrite Hi. auto.
  - unfold PatentsCursor.Filter in HFilter.
    destruct (XMLChunkCursor.Filter (PatentsCursor.files_cursor pc) g
                index_number constraint_args)
      as [[fc g1]| |] eqn:Hfc; cbn [bind] in HFilter; try discriminate.
    destruct (if negb (Z.land index_number ROWID_INDEX =? 0)
              then py_getitem constraint_args 1 else Ok 0)
      as [item| |]; cbn [bind] in HFilter; try discriminate.
    inversion HFilter; subst; clear HFilter. cbn in *.
    destruct (XMLChunkCursor_Filter_on_container _ _ _ _ _ _ Hfc Heof)
      as (i & chunk & Hi & Hget & Hread).
    exists i, chunk. rewrite Hi. auto.
Qed.

End ForeignKeyProperties.

(** * The properties at the sample inputs *)

Section Samples.
#[local] Existing Instance Sample.env.

(** The rows of the nested cursor over three chunks with two, no and one
    sub-element: the container of each row and its element index. *)
Example classification_rows :
  map (fun c : Sample.nested =>
         (Cursor.container_id (PatentsElementsCursor.parent_cursor c),
          PatentsElementsCursor.element_index c))
      (match PatentsElementsCursor.Next
               (Sample.classifications ["a12"; "b"; "c3"]) with
       | Ok c1 => Cursor.rows c1
       | _ => []
       end)
  = [(Some 0, 0); (Some 0, 1); (Some 2, 0)].
Proof. vm_compute. reflexivity. Qed.

(** C3. The row id of the root cursor on a full scan of three containers:
    [Filter] returns; the rows are on the containers 0, 1 and 2, which is
    what [container_id] and column 0 give, and [Rowid] is 0 on each of
    them. The nested cursor builds its row ids on it: its rows on the
    first element of container 0 and on the first element of container 2
    have the same [Rowid]. *)
Theorem PatentsCursor_Rowid_is_zero_on_every_row :
  PatentsCursor.Filter
    (PatentsCursor.init (Sample.table ["a12"; "b"; "c3"])) Sample.globals 0 []
  = Ok (Sample.patents ["a12"; "b"; "c3"])
  /\ map (fun s : Sample.root =>
            (PatentsCursor.container_id (fst s),
             PatentsCursor.Column (fst s) 0,
             PatentsCursor.Rowid (fst s)))
         (Cursor.rows (Sample.patents ["a12"; "b"; "c3"]))
     = [(Some 0, Ok (VInt 0), 0);
        (Some 1, Ok (VInt 1), 0);
        (Some 2, Ok (VInt 2), 0)]
  /\ map (fun c : Sample.nested =>
            (Cursor.container_id (PatentsElementsCursor.parent_cursor c),
             PatentsElementsCursor.element_index c,
             PatentsIpcrCurcor.Rowid c))
         (match PatentsElementsCursor.Next
                  (Sample.classifications ["a12"; "b"; "c3"]) with
          | Ok c1 => Cursor.rows c1
          | _ => []
          end)
     = [(Some 0, 0, 0); (Some 0, 1, 1); (Some 2, 0, 0)].
Proof. vm_compute. repeat split. Qed.

(** C9. The cursor over a file with an empty line between two records:
    [Filter] passes over the header and stops on the first record with row
    id 0; the next [Next] reads the empty record and sets Eof, while the
    reader still holds the second record. *)
Theorem CsvCursor_Eof_at_empty_record :
  exists first second : CsvCursor.t,
    CsvCursor.Filter (CsvCursor.init Sample.works_asjcs) = Ok first
    /\ CsvCursor.Eof first = false
    /\ CsvCursor.Rowid first = 0
    /\ CsvCursor.row_value first = Some ["1"; "1000"]
    /\ CsvCursor.Next first = Ok second
    /\ CsvCursor.Eof second = true
    /\ CsvCursor.reader second = Some [["2"; "1100"]].
Proof. do 2 eexists. vm_compute. repeat split. Qed.

(** C5, as stated, fails: with one container and the pinned index 1,
    [Filter] leaves the cursor at Eof, on no container, and has fetched
    nothing. *)
Lemma pinned_index_past_the_end_yields_no_container :
  exists self : XMLChunkCursor.t,
    XMLChunkCursor.Filter
      (XMLChunkCursor.init (Sample.table ["a12"])) Sample.globals 1 [1]
    = Ok (self, Sample.globals)
    /\ XMLChunkCursor.Eof self = true
    /\ XMLChunkCursor.current_row_value self = None.
Proof. eexists. vm_compute. repeat split. Qed.

(** C6, as stated, fails: over the containers named A.XML and B.XML, the
    first row of the nested cursor made of the second container has the
    integer 1 in column 2, and not the name B.XML of that container. *)
Lemma patent_id_is_not_the_display_name :
  let chunks := ZipFiles.get_xml_files_array Sample.zip_files in
  exists (second : Sample.root) (row : Sample.nested),
    ZipFiles.init (Sample.one_archive Sample.two_names) "dir" (fun _ => true)
    = Ok Sample.zip_files
    /\ PatentsCursor.Next (fst (Sample.patents chunks))
         (snd (Sample.patents chunks)) = Ok second
    /\ PatentsElementsCursor.Next
         (PatentsIpcrCurcor.init (Sample.table chunks) second) = Ok row
    /\ PatentsElementsCursor.Eof row = false
    /\ ZipFiles.get_container_name Sample.zip_files 1 = Ok "B.XML"
    /\ PatentsIpcrCurcor.Column row 2 = Ok (VInt 1)
    /\ PatentsIpcrCurcor.Column row 2 <> Ok (VStr "B.XML").
Proof.
  do 2 eexists. vm_compute. repeat split. discriminate.
Qed.

(** C8, as stated, fails: an archive with one XML member and two
    fragments that carry the same name is well formed and gives two
    containers, and one distinct name. *)
Lemma two_fragments_with_one_name :
  exists self : ZipFiles.t,
    ZipFiles.init (Sample.one_archive Sample.two_same_names) "dir"
      (fun _ => true) = Ok self
    /\ well_formed_archive
         (ZipFile (Sample.one_archive Sample.two_same_names) "dir/week.zip")
    /\ List.length
         (chunks_of
            (ZipFile (Sample.one_archive Sample.two_same_names) "dir/week.zip"))
       = 2%nat
    /\ List.length (ZipFiles.get_xml_files_array self) = 2%nat
    /\ List.length (nodup string_dec (ZipFiles.patent_file_name self)) = 1%nat.
Proof.
  eexists. split; [vm_compute; reflexivity|].
  split; [|vm_compute; repeat split].
  split; [reflexivity|].
  apply Forall_forall. intros xml_info Hin. vm_compute in Hin.
  destruct Hin as [<-|[<-|[]]]; apply chunk_name_Some; vm_compute;
    discriminate.
Qed.


(** C2 at the cursor over the chunks with two, no and one sub-element. *)
Lemma nested_cursor_Next_rows_witness :
  PatentsElementsCursor.settled (Sample.classifications ["a12"; "b"; "c3"])
  /\ PatentsElementsCursor.Next (Sample.classifications ["a12"; "b"; "c3"])
     <> OutOfFuel
  /\ map row_of
       (match PatentsElementsCursor.Next
                (Sample.classifications ["a12"; "b"; "c3"]) with
        | Ok c1 => Cursor.rows c1
        | _ => []
        end)
     = flat_map (element_rows Sample.chars_after_first)
         (Cursor.rows (Sample.patents ["a12"; "b"; "c3"])).
Proof.
  assert (Hsettled : PatentsElementsCursor.settled
                       (Sample.classifications ["a12"; "b"; "c3"])).
  { left. reflexivity. }
  destruct (nested_cursor_Next_rows (parent_laws := PatentsCursor_laws)
              (Sample.classifications ["a12"; "b"; "c3"]) Hsettled)
    as (Hreturns & _ & Hrows).
  split; [exact Hsettled|]. split; [exact Hreturns|]. exact (Hrows eq_refl).
Defined.

(** C4 at parent row id 5 and element index 3. *)
Lemma PatentsIpcrCurcor_Rowid_packing_witness :
  0 <= 3 < 2 ^ 14
  /\ PatentsIpcrCurcor.Rowid Sample.on_fourth_element
     = Z.lor (Z.shiftl 5 14) 3
  /\ Z.shiftr (PatentsIpcrCurcor.Rowid Sample.on_fourth_element) 14 = 5
  /\ Z.land (PatentsIpcrCurcor.Rowid Sample.on_fourth_element) (2 ^ 14 - 1)
     = 3.
Proof.
  assert (Hrange : 0 <= 3 < 2 ^ 14) by lia.
  assert (Hparent :
    Cursor.Rowid (PatentsElementsCursor.parent_cursor Sample.on_fourth_element)
    = 5) by reflexivity.
  assert (Hindex :
    PatentsElementsCursor.element_index Sample.on_fourth_element = 3)
    by reflexivity.
  destruct (PatentsIpcrCurcor_Rowid_packing Sample.on_fourth_element 5 3
              Hparent Hindex Hrange) as (Hpack & Hshift & Hmask & _).
  split; [exact Hrange|]. split; [exact Hpack|]. split; assumption.
Defined.

(** C5, as amended, at the pinned index 1 of three containers. *)
Lemma XMLChunkCursor_Filter_pinned_in_range_witness :
  exists (self1 : XMLChunkCursor.t) (g1 : Globals),
    XMLChunkCursor.Filter
      (XMLChunkCursor.init (Sample.table ["a12"; "b"; "c3"]))
      Sample.globals 1 [1]
    = Ok (self1, g1)
    /\ XMLChunkCursor.Eof self1 = false
    /\ XMLChunkCursor.Rowid self1 = Some 1
    /\ (XMLChunkCursor.current_row_value self1, g1)
       = file_cache_read Sample.globals "b" 1
    /\ XMLChunkCursor.Next self1 g1
       = Ok (XMLChunkCursor.set_eof true self1, g1).
Proof.
  apply (XMLChunkCursor_Filter_pinned_in_range
           (XMLChunkCursor.init (Sample.table ["a12"; "b"; "c3"]))
           Sample.globals 1 1 [] "b").
  - vm_compute. discriminate.
  - lia.
  - reflexivity.
Defined.

(** C10 at the pinned index 3 of three containers. *)
Lemma XMLChunkCursor_Filter_pinned_out_of_range_witness :
  exists self' : XMLChunkCursor.t,
    XMLChunkCursor.Filter
      (XMLChunkCursor.init (Sample.table ["a12"; "b"; "c3"]))
      Sample.globals 1 [3]
    = Ok (self', Sample.globals)
    /\ XMLChunkCursor.Eof self' = true
    /\ XMLChunkCursor.element_tree self'
       = XMLChunkCursor.element_tree
           (XMLChunkCursor.init (Sample.table ["a12"; "b"; "c3"]))
    /\ XMLChunkCursor.Next self' Sample.globals = Ok (self', Sample.globals).
Proof.
  apply (XMLChunkCursor_Filter_pinned_out_of_range
           (XMLChunkCursor.init (Sample.table ["a12"; "b"; "c3"]))
           Sample.globals 1 3 []).
  - vm_compute. discriminate.
  - vm_compute. discriminate.
Defined.

(** C6, as amended, at the nested cursor over three chunks whose parent
    [Filter] has left on the first container. *)
Lemma PatentsIpcrCurcor_Column_patent_id_witness :
  exists (i : Z) (chunk : string),
    py_getitem ["a12"; "b"; "c3"] i = Ok chunk
    /\ (Cursor.current_row_value (Sample.patents ["a12"; "b"; "c3"]),
        snd (Sample.patents ["a12"; "b"; "c3"]))
       = file_cache_read Sample.globals chunk i
    /\ Cursor.container_id (Sample.patents ["a12"; "b"; "c3"]) = Some i
    /\ PatentsIpcrCurcor.Column
         (Sample.classifications ["a12"; "b"; "c3"]) 2 = Ok (VInt i).
Proof.
  apply (PatentsIpcrCurcor_Column_patent_id
           (Sample.classifications ["a12"; "b"; "c3"])
           (PatentsCursor.init (Sample.table ["a12"; "b"; "c3"]))
           Sample.globals).
  - right. exists 0, []. reflexivity.
  - reflexivity.
Defined.

(** C7 at an archive whose only fragment has no name. *)
Lemma ZipFiles_init_discovery_fault_witness :
  In "dir/week.zip"
     (selected_paths (Sample.one_archive "<doc/>") "dir" (fun _ => true))
  /\ discovery_fault (ZipFile (Sample.one_archive "<doc/>") "dir/week.zip")
  /\ exists e,
       ZipFiles.init (Sample.one_archive "<doc/>") "dir" (fun _ => true)
       = Raise e
       /\ (e = ValueError \/ e = AttributeError).
Proof.
  assert (Hin : In "dir/week.zip"
                  (selected_paths (Sample.one_archive "<doc/>") "dir"
                     (fun _ => true))).
  { left. reflexivity. }
  assert (Hfault : discovery_fault
                     (ZipFile (Sample.one_archive "<doc/>") "dir/week.zip")).
  { right. apply Exists_cons_hd, chunk_name_None. reflexivity. }
  split; [exact Hin|]. split; [exact Hfault|].
  exact (ZipFiles_init_discovery_fault
           (Sample.one_archive "<doc/>") "dir" (fun _ => true)
           "dir/week.zip" Hin Hfault).
Defined.

(** C8, as amended, at the archive with the fragments A.XML and B.XML. *)
Lemma ZipFiles_init_container_count_witness :
  exists self : ZipFiles.t,
    ZipFiles.init (Sample.one_archive Sample.two_names) "dir" (fun _ => true)
    = Ok self
    /\ ZipFiles.get_xml_files_array self
       = flat_map
           (fun path =>
              chunks_of (ZipFile (Sample.one_archive Sample.two_names) path))
           (selected_paths (Sample.one_archive Sample.two_names) "dir"
              (fun _ => true))
    /\ map Some (ZipFiles.patent_file_name self)
       = map chunk_name (ZipFiles.get_xml_files_array self)
    /\ List.length (ZipFiles.patent_file_name self)
       = List.length (ZipFiles.get_xml_files_array self)
    /\ ZipFiles.get_container_iterator self
       = map Z.of_nat
           (seq 0
              (List.length
                 (flat_map
                    (fun path =>
                       chunks_of
                         (ZipFile (Sample.one_archive Sample.two_names) path))
                    (selected_paths (Sample.one_archive Sample.two_names)
                       "dir" (fun _ => true))))).
Proof.
  apply (ZipFiles_init_container_count
           (Sample.one_archive Sample.two_names) "dir" (fun _ => true)).
  apply Forall_cons; [|apply Forall_nil].
  split; [reflexivity|].
  apply Forall_forall. intros xml_info Hin. vm_compute in Hin.
  destruct Hin as [<-|[<-|[]]]; apply chunk_name_Some; vm_compute;
    discriminate.
Defined.

End Samples.

(** * Further properties *)

(** ** The cache behind a source that does not change *)

Section FileCacheTransparency.
Context {env : Env}.

Lemma read_agrees (chunk_of : Z -> string) (self : FileCache.t)
    (n c : Z) :
  agrees chunk_of self ->
  fst (fst (FileCache.read self n (chunk_of c) c))
  = Some (fromstring (chunk_of c))
  /\ agrees chunk_of (snd (fst (FileCache.read self n (chunk_of c) c)))
  /\ n <= snd (FileCache.read self n (chunk_of c) c) <= n + 1.
Proof.
  unfold agrees, FileCache.read, FileCache.id_eq. intros Hagrees.
  destruct (FileCache.cached_id self) as [c0|] eqn:Hid; cbn.
  - destruct (Z.eqb_spec c c0) as [->|_]; cbn.
    + rewrite Hid. repeat split; [exact Hagrees|exact Hagrees|lia|lia].
    + repeat split; lia.
  - repeat split; lia.
Qed.

(** X1. Behind a source whose chunk under each id stays the same, the
    cache cannot be told from the parser: from a cache that agrees with
    the source (a new cache does), every call of a sequence returns the
    parse of the chunk it is given, hit or miss; the cache still agrees
    afterwards; and the parse counter has grown by at most one per call. *)
Theorem FileCache_reads_transparent
    (chunk_of : Z -> string) (calls : list (string * Z)) :
  forall (self : FileCache.t) (n : Z),
    agrees chunk_of self ->
    Forall (fun call => fst call = chunk_of (snd call)) calls ->
    fst (fst (FileCache.reads self n calls))
    = map (fun call => Some (fromstring (fst call))) calls
    /\ agrees chunk_of (snd (fst (FileCache.reads self n calls)))
    /\ n <= snd (FileCache.reads self n calls)
         <= n + Z.of_nat (List.length calls).
Proof.
  induction calls as [|[x c] rest IH]; intros self n Hagrees Hcalls.
  - cbn. repeat split; [exact Hagrees|lia|lia].
  - inversion Hcalls as [|? ? Hx Hrest]; subst. cbn in Hx. subst x.
    cbn [FileCache.reads].
    pose proof (read_agrees chunk_of self n c Hagrees) as (Htree & Hself & Hn).
    destruct (FileCache.read self n (chunk_of c) c) as [[tree self'] n'].
    cbn in Htree, Hself, Hn.
    specialize (IH self' n' Hself Hrest).
    destruct (FileCache.reads self' n' rest) as [[trees self''] n''].
    cbn in IH. destruct IH as (Htrees & Hself'' & Hn'').
    cbn [fst snd map List.length]. rewrite Htree, Htrees.
    repeat split; [exact Hself''|lia|lia].
Qed.

End FileCacheTransparency.

(** ** A full scan of the root cursor *)

Lemma skipn_cons_nth {A : Type} (k : nat) :
  forall (l : list A) (x : A) (rest : list A),
    skipn k l = x :: rest ->
    nth_error l k = Some x
    /\ skipn (S k) l = rest
    /\ (k < List.length l)%nat.
Proof.
  induction k as [|k IH]; intros [|y l] x rest Hskip; cbn in *;
    try discriminate.
  - inversion Hskip; subst. repeat split. lia.
  - destruct (IH l x rest Hskip) as (Hnth & Hrest & Hlen).
    repeat split; [exact Hnth|exact Hrest|lia].
Qed.

Lemma skipn_nil_length {A : Type} (k : nat) :
  forall l : list A, skipn k l = [] -> (List.length l <= k)%nat.
Proof.
  induction k as [|k IH]; intros [|y l] Hskip; cbn in *;
    try discriminate; try lia.
  specialize (IH l Hskip). lia.
Qed.

Section FullScan.
Context {env : Env}.

(** The rows from a root cursor on container [i] of a full scan, the
    cache holding the id [i]: this row, then one row for each chunk after
    it, parsed afresh. *)
Lemma full_scan_from (rest : list string) :
  forall (pc : PatentsCursor.t) (g : Globals) (i : Z),
    PatentsCursor.eof pc = false ->
    XMLChunkCursor.file_index (PatentsCursor.files_cursor pc) = Some i ->
    0 <= i ->
    py_bool (XMLChunkCursor.single_file (PatentsCursor.files_cursor pc))
    = false ->
    skipn (Z.to_nat (i + 1))
      (data_source (XMLChunkCursor.table (PatentsCursor.files_cursor pc)))
    = rest ->
    FileCache.cached_id (file_cache g) = Some i ->
    map patent_row (Cursor.rows (pc, g))
    = patent_row (pc, g)
      :: map (parsed_patent_row (parse_counter g - i)) (enumerate (i + 1) rest).
Proof.
  induction rest as [|c rest IH]; intros pc g i Heof Hi Hpos Hsingle Hskip Hid;
    rewrite (rows_unfold (cursor_laws := PatentsCursor_laws));
    change (Cursor.Eof (pc, g)) with (PatentsCursor.eof pc);
    change (Cursor.Next (pc, g)) with (PatentsCursor.Next pc g);
    rewrite Heof; cbn [map enumerate]; f_equal;
    unfold PatentsCursor.Next, XMLChunkCursor.Next;
    rewrite Hsingle, Hi; cbn [andb].
  - apply skipn_nil_length in Hskip.
    destruct (Z.geb_spec (i + 1)
                (Z.of_nat
                   (List.length
                      (data_source
                         (XMLChunkCursor.table (PatentsCursor.files_cursor pc))))))
      as [_|?]; [|lia].
    cbn [bind]. rewrite (rows_unfold (cursor_laws := PatentsCursor_laws)).
    reflexivity.
  - destruct (skipn_cons_nth _ _ _ _ Hskip) as (Hnth & Hrest & Hlen).
    destruct (Z.geb_spec (i + 1)
                (Z.of_nat
                   (List.length
                      (data_source
                         (XMLChunkCursor.table (PatentsCursor.files_cursor pc))))))
      as [?|_]; [lia|].
    rewrite (py_getitem_nth _ (i + 1) c) by (lia || exact Hnth).
    cbn [bind]. unfold file_cache_read.
    rewrite read_miss by (rewrite Hid; intros H; inversion H; lia).
    cbn [bind].
    rewrite IH with (i := i + 1); cbn; try reflexivity; try lia.
    + unfold patent_row, parsed_patent_row. cbn. f_equal.
      * f_equal. lia.
      * apply map_ext. intros ic. unfold parsed_patent_row. f_equal. lia.
    + exact Hsingle.
    + rewrite <- Hrest. f_equal. lia.
Qed.

(** The rows of a full scan, from any state of cursor and cache. *)
Lemma full_scan_rows (pc : PatentsCursor.t) (g : Globals)
    (constraint_args : list Z) :
  exists s0 : PatentsCursor.t * Globals,
    PatentsCursor.Filter pc g 0 constraint_args = Ok s0
    /\ map patent_row (Cursor.rows s0)
       = match data_source
                 (XMLChunkCursor.table (PatentsCursor.files_cursor pc)) with
         | [] => []
         | c0 :: rest =>
             (Some 0, 0, fst (file_cache_read g c0 0),
              Ok (VInt 0), Ok (VInt 0),
              parse_counter (snd (file_cache_read g c0 0)))
             :: map (parsed_patent_row (parse_counter (snd (file_cache_read g c0 0))))
                  (enumerate 1 rest)
         end.
Proof.
  unfold PatentsCursor.Filter, XMLChunkCursor.Filter.
  cbn [Z.eqb bind]. unfold XMLChunkCursor.Next. cbn [XMLChunkCursor.single_file
    XMLChunkCursor.file_read XMLChunkCursor.file_index XMLChunkCursor.table
    py_bool andb].
  rewrite Z.land_0_l. cbn [Z.eqb negb].
  destruct (data_source (XMLChunkCursor.table (PatentsCursor.files_cursor pc)))
    as [|c0 rest] eqn:Hchunks.
  - cbn [List.length].
    destruct (Z.geb_spec (-1 + 1) (Z.of_nat 0)) as [_|?]; [|lia].
    cbn [bind]. eexists. split; [reflexivity|].
    rewrite (rows_unfold (cursor_laws := PatentsCursor_laws)). reflexivity.
  - cbn [List.length].
    destruct (Z.geb_spec (-1 + 1) (Z.of_nat (S (List.length rest))))
      as [?|_]; [lia|].
    change (-1 + 1) with 0. rewrite py_getitem_head. cbn [bind].
    pose proof (read_slot (file_cache g) (parse_counter g) c0 0) as [Hid _].
    unfold file_cache_read in *.
    destruct (FileCache.read (file_cache g) (parse_counter g) c0 0)
      as [[tree fc] n] eqn:Hread. cbn in Hid. cbn [bind fst snd].
    eexists. split; [reflexivity|].
    rewrite full_scan_from with (i := 0) (rest := rest); cbn;
      try reflexivity; try lia; try assumption.
    + unfold patent_row. cbn. f_equal.
      apply map_ext. intros ic. unfold parsed_patent_row. f_equal. lia.
    + rewrite Hchunks. reflexivity.
Qed.


(** X2. A full scan of the root cursor. From any state of cursor and
    cache, [Filter] with index number 0 returns, and the rows that follow
    are the containers 0, 1, ..., n-1 in order, none left out or repeated,
    without an exception: on each, [container_id] and the columns 0 and 1
    are the container's index and [Rowid] is 0. The tree of container 0 is
    what the cache returns for it as it stands; every later container is
    parsed from its own chunk, and the parse counter grows by one at each. *)
Theorem PatentsCursor_full_scan (pc : PatentsCursor.t) (g : Globals)
    (constraint_args : list Z) :
  exists s0 : PatentsCursor.t * Globals,
    PatentsCursor.Filter pc g 0 constraint_args = Ok s0
    /\ map patent_row (Cursor.rows s0)
       = match data_source
                 (XMLChunkCursor.table (PatentsCursor.files_cursor pc)) with
         | [] => []
         | c0 :: rest =>
             (Some 0, 0, fst (file_cache_read g c0 0),
              Ok (VInt 0), Ok (VInt 0),
              parse_counter (snd (file_cache_read g c0 0)))
             :: map (parsed_patent_row
                       (parse_counter (snd (file_cache_read g c0 0))))
                  (enumerate 1 rest)
         end.
Proof. exact (full_scan_rows pc g constraint_args). Qed.

(** *** The nested cursor over a scan of the root cursor *)

Lemma flat_map_of_map {A B C : Type} (f : B -> list C) (g : A -> B)
    (l : list A) :
  flat_map f (map g l) = flat_map (fun x => f (g x)) l.
Proof.
  induction l as [|x l IH]; cbn; [reflexivity|]. rewrite IH. reflexivity.
Qed.

(** The rows of the nested cursor, as the engine reads them, from the
    rows of the root cursor. *)
Lemma classification_rows_of_rows
    (c : @PatentsElementsCursor.t env (PatentsCursor.t * Globals)) :
  truthy (PatentsElementsCursor.elements c) = false ->
  map classification_row
    (match PatentsElementsCursor.Next c with
     | Ok c1 => Cursor.rows c1
     | _ => []
     end)
  = flat_map
      (fun r : option Z * Z * option Element * Result Value * Result Value * Z =>
         classification_rows_of (PatentsElementsCursor.extract_multiple c)
           (fst (fst (fst (fst (fst r))))) (snd (fst (fst (fst r)))))
      (map patent_row (Cursor.rows (PatentsElementsCursor.parent_cursor c))).
Proof.
  intros Hfalsy.
  pose proof (rows_of_parent_rows (parent_laws := PatentsCursor_laws)
                (S (Cursor.remaining (PatentsElementsCursor.parent_cursor c)))
                c (Nat.lt_succ_diag_r _) Hfalsy) as Hrows.
  set (h := fun r : (PatentsCursor.t * Globals) * option (list Element) * Z =>
              (Ok (value_of_int (Cursor.container_id (fst (fst r)))) : Result Value,
               snd r, snd (fst r))).
  transitivity
    (map h (map row_of
              (match PatentsElementsCursor.Next c with
               | Ok c1 => Cursor.rows c1
               | _ => []
               end))).
  { rewrite map_map. apply map_ext. intros c'. reflexivity. }
  rewrite Hrows, flat_map_of_map. clear Hrows.
  induction (Cursor.rows (PatentsElementsCursor.parent_cursor c))
    as [|p rows IH]; [reflexivity|].
  cbn [flat_map]. rewrite map_app, IH. f_equal.
  unfold element_rows, classification_rows_of. rewrite map_map. reflexivity.
Qed.

(** X3. A full scan of the nested cursor over the root cursor. Started
    with no elements held on a root cursor that [Filter] has set up for a
    full scan, the nested cursor delivers, container after container in
    order, one row for each element the extractor finds in the tree of
    the container: column 2 is the index of the container, the element
    index counts from 0 within the container, and the list held is the
    one extracted from that tree. Containers without elements give no
    row. *)
Theorem PatentsIpcrCurcor_full_scan
    (c : @PatentsElementsCursor.t env (PatentsCursor.t * Globals))
    (pc : PatentsCursor.t) (g : Globals) (constraint_args : list Z) :
  truthy (PatentsElementsCursor.elements c) = false ->
  PatentsCursor.Filter pc g 0 constraint_args
  = Ok (PatentsElementsCursor.parent_cursor c) ->
  map classification_row
    (match PatentsElementsCursor.Next c with
     | Ok c1 => Cursor.rows c1
     | _ => []
     end)
  = match data_source
            (XMLChunkCursor.table (PatentsCursor.files_cursor pc)) with
    | [] => []
    | c0 :: rest =>
        (classification_rows_of (PatentsElementsCursor.extract_multiple c)
           (Some 0) (fst (file_cache_read g c0 0))
         ++ flat_map
              (fun ic =>
                 classification_rows_of
                   (PatentsElementsCursor.extract_multiple c)
                   (Some (fst ic)) (Some (fromstring (snd ic))))
              (enumerate 1 rest))%list
    end.
Proof.
  intros Hfalsy HFilter.
  rewrite (classification_rows_of_rows c Hfalsy).
  destruct (full_scan_rows pc g constraint_args) as (s0 & HFilter' & Hrows).
  rewrite HFilter in HFilter'. inversion HFilter'; subst s0. rewrite Hrows.
  destruct (data_source (XMLChunkCursor.table (PatentsCursor.files_cursor pc)))
    as [|c0 rest]; [reflexivity|].
  cbn [flat_map fst snd]. f_equal.
  rewrite flat_map_of_map. reflexivity.
Qed.

End FullScan.

(** ** A scan pinned to one container *)

Lemma py_getitem_Ok_range {A : Type} (l : list A) (i : Z) (x : A) :
  py_getitem l i = Ok x ->
  - Z.of_nat (List.length l) <= i < Z.of_nat (List.length l).
Proof.
  unfold py_getitem.
  destruct (Z.ltb_spec i 0);
    destruct (Z.ltb_spec (i + Z.of_nat (List.length l)) 0);
    destruct (Z.ltb_spec i 0);
    destruct (Z.leb_spec (Z.of_nat (List.length l))
                (i + Z.of_nat (List.length l)));
    destruct (Z.leb_spec (Z.of_nat (List.length l)) i);
    cbn [orb]; try discriminate; intros _; lia.
Qed.

Lemma py_getitem_out_of_range {A : Type} (l : list A) (i : Z) :
  Z.of_nat (List.length l) <= i -> py_getitem l i = Raise IndexError.
Proof.
  intros Hi. unfold py_getitem.
  destruct (Z.ltb_spec i 0) as [?|_]; [lia|].
  destruct (Z.ltb_spec i 0) as [?|_]; [lia|].
  destruct (Z.leb_spec (Z.of_nat (List.length l)) i) as [_|?]; [|lia].
  reflexivity.
Qed.


Section PinnedScan.
Context {env : Env}.

(** The rows after [Filter] with the container flag and a first constraint
    argument [k] at which the container list has a chunk. *)
Lemma pinned_scan_rows (pc : PatentsCursor.t) (g : Globals)
    (index_number k : Z) (rest : list Z) (chunk : string) :
  Z.land index_number CONTAINER_INDEX <> 0 ->
  Z.land index_number ROWID_INDEX = 0 ->
  py_getitem
    (data_source (XMLChunkCursor.table (PatentsCursor.files_cursor pc))) k
  = Ok chunk ->
  exists s1 : PatentsCursor.t * Globals,
    PatentsCursor.Filter pc g index_number (k :: rest) = Ok s1
    /\ map patent_row (Cursor.rows s1)
       = [(Some k, 0, fst (file_cache_read g chunk k),
           Ok (VInt k), Ok (VInt k),
           parse_counter (snd (file_cache_read g chunk k)))].
Proof.
  intros Hflag Hrowid Hget.
  pose proof (py_getitem_Ok_range _ _ _ Hget) as [_ Hk].
  unfold PatentsCursor.Filter, XMLChunkCursor.Filter.
  destruct (Z.eqb_spec index_number 0) as [->|_];
    [rewrite Z.land_0_l in Hflag; contradiction|].
  destruct (Z.eqb_spec (Z.land index_number CONTAINER_INDEX) 0) as [?|_];
    [contradiction|].
  rewrite Hrowid. cbn [negb Z.eqb]. rewrite py_getitem_head. cbn [bind].
  unfold XMLChunkCursor.Next.
  cbn [XMLChunkCursor.single_file XMLChunkCursor.file_read
       XMLChunkCursor.file_index XMLChunkCursor.table py_bool andb].
  replace (k - 1 + 1) with k by lia.
  destruct (Z.geb_spec k
              (Z.of_nat
                 (List.length
                    (data_source
                       (XMLChunkCursor.table (PatentsCursor.files_cursor pc))))))
    as [?|_]; [lia|].
  rewrite Hget. cbn [bind].
  destruct (file_cache_read g chunk k) as [tree g1]. cbn [bind fst snd].
  eexists. split; [reflexivity|].
  rewrite (rows_unfold (cursor_laws := PatentsCursor_laws)).
  cbn [Cursor.Eof Cursor.Next PatentsCursor_ops PatentsCursor.Eof
       PatentsCursor.eof XMLChunkCursor.Eof XMLChunkCursor.eof fst snd].
  unfold PatentsCursor.Next, XMLChunkCursor.Next.
  cbn [PatentsCursor.files_cursor XMLChunkCursor.single_file
       XMLChunkCursor.file_read py_bool andb bind].
  rewrite (rows_unfold (cursor_laws := PatentsCursor_laws)).
  reflexivity.
Qed.

(** X4. A scan of the root cursor pinned to one container. With the
    container flag (and without the row-id flag) and a first constraint
    argument [k] at which the container list has a chunk, read as Python
    indexes a list, so that a negative [k] counts from the end, [Filter]
    returns and exactly one row follows:
    its tree is what the cache returns for that chunk under the id [k],
    and [container_id] and the columns 0 and 1 are [k] itself, also when
    [k] is negative. *)
Theorem PatentsCursor_pinned_scan (pc : PatentsCursor.t) (g : Globals)
    (index_number k : Z) (rest : list Z) (chunk : string) :
  Z.land index_number CONTAINER_INDEX <> 0 ->
  Z.land index_number ROWID_INDEX = 0 ->
  py_getitem
    (data_source (XMLChunkCursor.table (PatentsCursor.files_cursor pc))) k
  = Ok chunk ->
  exists s1 : PatentsCursor.t * Globals,
    PatentsCursor.Filter pc g index_number (k :: rest) = Ok s1
    /\ map patent_row (Cursor.rows s1)
       = [(Some k, 0, fst (file_cache_read g chunk k),
           Ok (VInt k), Ok (VInt k),
           parse_counter (snd (file_cache_read g chunk k)))].
Proof. exact (pinned_scan_rows pc g index_number k rest chunk). Qed.

(** X5. A pinned index below minus the number of containers. With the
    container flag and a first constraint argument [k] with k < -n,
    [Filter] raises [IndexError] from the indexing of the container list,
    on the files cursor and on the root cursor alike. *)
Theorem Filter_pinned_below_range (pc : PatentsCursor.t) (g : Globals)
    (index_number k : Z) (rest : list Z) :
  Z.land index_number CONTAINER_INDEX <> 0 ->
  k < - Z.of_nat
          (List.length
             (data_source
                (XMLChunkCursor.table (PatentsCursor.files_cursor pc)))) ->
  XMLChunkCursor.Filter (PatentsCursor.files_cursor pc) g index_number
    (k :: rest) = Raise IndexError
  /\ PatentsCursor.Filter pc g index_number (k :: rest) = Raise IndexError.
Proof.
  intros Hflag Hk.
  assert (Hfiles :
    XMLChunkCursor.Filter (PatentsCursor.files_cursor pc) g index_number
      (k :: rest) = Raise IndexError).
  { unfold XMLChunkCursor.Filter.
    destruct (Z.eqb_spec index_number 0) as [->|_];
      [rewrite Z.land_0_l in Hflag; contradiction|].
    destruct (Z.eqb_spec (Z.land index_number CONTAINER_INDEX) 0) as [?|_];
      [contradiction|].
    cbn [negb]. rewrite py_getitem_head. cbn [bind].
    unfold XMLChunkCursor.Next.
    cbn [XMLChunkCursor.single_file XMLChunkCursor.file_read
         XMLChunkCursor.file_index XMLChunkCursor.table py_bool andb].
    replace (k - 1 + 1) with k by lia.
    destruct (Z.geb_spec k
                (Z.of_nat
                   (List.length
                      (data_source
                         (XMLChunkCursor.table (PatentsCursor.files_cursor pc))))))
      as [?|_]; [lia|].
    unfold py_getitem.
    destruct (Z.ltb_spec k 0) as [_|?]; [|lia].
    destruct (Z.ltb_spec
                (k + Z.of_nat
                       (List.length
                          (data_source
                             (XMLChunkCursor.table
                                (PatentsCursor.files_cursor pc))))) 0)
      as [_|?]; [|lia].
    reflexivity. }
  split; [exact Hfiles|].
  unfold PatentsCursor.Filter. rewrite Hfiles. reflexivity.
Qed.

(** X6. The nested cursor over a pinned scan. Started with no elements
    held on a root cursor that [Filter] has pinned to the container [k],
    the nested cursor delivers the elements of that container alone: one
    row per element the extractor finds in its tree, with column 2 equal
    to [k] and element indexes from 0. *)
Theorem PatentsIpcrCurcor_pinned_scan
    (c : @PatentsElementsCursor.t env (PatentsCursor.t * Globals))
    (pc : PatentsCursor.t) (g : Globals)
    (index_number k : Z) (rest : list Z) (chunk : string) :
  truthy (PatentsElementsCursor.elements c) = false ->
  Z.land index_number CONTAINER_INDEX <> 0 ->
  Z.land index_number ROWID_INDEX = 0 ->
  py_getitem
    (data_source (XMLChunkCursor.table (PatentsCursor.files_cursor pc))) k
  = Ok chunk ->
  PatentsCursor.Filter pc g index_number (k :: rest)
  = Ok (PatentsElementsCursor.parent_cursor c) ->
  map classification_row
    (match PatentsElementsCursor.Next c with
     | Ok c1 => Cursor.rows c1
     | _ => []
     end)
  = classification_rows_of (PatentsElementsCursor.extract_multiple c)
      (Some k) (fst (file_cache_read g chunk k)).
Proof.
  intros Hfalsy Hflag Hrowid Hget HFilter.
  rewrite (classification_rows_of_rows c Hfalsy).
  destruct (pinned_scan_rows pc g index_number k rest chunk Hflag Hrowid Hget)
    as (s1 & HFilter' & Hrows).
  rewrite HFilter in HFilter'. inversion HFilter'; subst s1. rewrite Hrows.
  cbn [flat_map fst snd]. apply app_nil_r.
Qed.

End PinnedScan.

(** ** Calls of [Filter] that set no position *)

Section FilterEdges.
Context {env : Env}.

(** X7. [Filter] with an index number that is not 0 and lacks the
    container flag sets no position: on the files cursor it is [Next] from
    wherever the cursor stands, and on a root cursor just constructed it
    raises [TypeError], the file index being [None], as [Next] does on
    such a cursor. *)
Theorem Filter_without_container_flag
    (self : XMLChunkCursor.t) (table : Table) (g : Globals)
    (index_number : Z) (constraint_args : list Z) :
  index_number <> 0 ->
  Z.land index_number CONTAINER_INDEX = 0 ->
  XMLChunkCursor.Filter self g index_number constraint_args
  = XMLChunkCursor.Next self g
  /\ PatentsCursor.Filter (PatentsCursor.init table) g index_number
       constraint_args = Raise TypeError
  /\ PatentsCursor.Next (PatentsCursor.init table) g = Raise TypeError.
Proof.
  intros Hidx Hflag.
  assert (HFilter : forall self',
    XMLChunkCursor.Filter self' g index_number constraint_args
    = XMLChunkCursor.Next self' g).
  { intros self'. unfold XMLChunkCursor.Filter.
    destruct (Z.eqb_spec index_number 0) as [?|_]; [contradiction|].
    rewrite Hflag. reflexivity. }
  split; [apply HFilter|]. split; [|reflexivity].
  unfold PatentsCursor.Filter. rewrite HFilter. reflexivity.
Qed.

(** X8. The constraint arguments [Filter] indexes. With the container
    flag and no constraint argument, [Filter] raises [IndexError]. With
    the row-id flag as well, a pinned index [k] inside the container list
    and a second argument [r], [Filter] returns on container [k] with
    [Rowid] equal to [r]; without the second argument it raises
    [IndexError]. *)
Theorem Filter_constraint_arguments
    (pc : PatentsCursor.t) (g : Globals) (index_number k r : Z)
    (rest : list Z) (chunk : string) :
  Z.land index_number CONTAINER_INDEX <> 0 ->
  Z.land index_number ROWID_INDEX <> 0 ->
  0 <= k ->
  nth_error
    (data_source (XMLChunkCursor.table (PatentsCursor.files_cursor pc)))
    (Z.to_nat k) = Some chunk ->
  PatentsCursor.Filter pc g index_number [] = Raise IndexError
  /\ PatentsCursor.Filter pc g index_number [k] = Raise IndexError
  /\ exists s1 : PatentsCursor.t * Globals,
       PatentsCursor.Filter pc g index_number (k :: r :: rest) = Ok s1
       /\ PatentsCursor.Eof (fst s1) = false
       /\ PatentsCursor.container_id (fst s1) = Some k
       /\ PatentsCursor.Rowid (fst s1) = r.
Proof.
  intros Hflag Hrowid Hk Hnth.
  assert (Hlt : (Z.to_nat k
                 < List.length
                     (data_source
                        (XMLChunkCursor.table (PatentsCursor.files_cursor pc))))%nat).
  { apply nth_error_Some. congruence. }
  assert (Hfiles : forall args,
    exists fc g1,
      XMLChunkCursor.Filter (PatentsCursor.files_cursor pc) g index_number
        (k :: args) = Ok (fc, g1)
      /\ XMLChunkCursor.eof fc = false
      /\ XMLChunkCursor.file_index fc = Some k).
  { intros args. unfold XMLChunkCursor.Filter.
    destruct (Z.eqb_spec index_number 0) as [->|_];
      [rewrite Z.land_0_l in Hflag; contradiction|].
    destruct (Z.eqb_spec (Z.land index_number CONTAINER_INDEX) 0) as [?|_];
      [contradiction|].
    cbn [negb]. rewrite py_getitem_head. cbn [bind].
    unfold XMLChunkCursor.Next.
    cbn [XMLChunkCursor.single_file XMLChunkCursor.file_read
         XMLChunkCursor.file_index XMLChunkCursor.table py_bool andb].
    replace (k - 1 + 1) with k by lia.
    destruct (Z.geb_spec k
                (Z.of_nat
                   (List.length
                      (data_source
                         (XMLChunkCursor.table (PatentsCursor.files_cursor pc))))))
      as [?|_]; [lia|].
    rewrite (py_getitem_nth _ k chunk Hk Hnth). cbn [bind].
    destruct (file_cache_read g chunk k) as [tree g1].
    do 2 eexists. split; [reflexivity|]. split; reflexivity. }
  split; [|split].
  - unfold PatentsCursor.Filter, XMLChunkCursor.Filter.
    destruct (Z.eqb_spec index_number 0) as [->|_];
      [rewrite Z.land_0_l in Hflag; contradiction|].
    destruct (Z.eqb_spec (Z.land index_number CONTAINER_INDEX) 0) as [?|_];
      [contradiction|].
    reflexivity.
  - unfold PatentsCursor.Filter.
    destruct (Hfiles []) as (fc & g1 & -> & _). cbn [bind].
    destruct (Z.eqb_spec (Z.land index_number ROWID_INDEX) 0) as [?|_];
      [contradiction|].
    reflexivity.
  - unfold PatentsCursor.Filter.
    destruct (Hfiles (r :: rest)) as (fc & g1 & -> & Heof & Hindex).
    cbn [bind].
    destruct (Z.eqb_spec (Z.land index_number ROWID_INDEX) 0) as [?|_];
      [contradiction|].
    cbn [negb].
    rewrite (py_getitem_nth (k :: r :: rest) 1 r) by (lia || reflexivity).
    cbn [bind]. eexists. split; [reflexivity|]. cbn.
    unfold PatentsCursor.Eof, PatentsCursor.container_id, XMLChunkCursor.Rowid.
    cbn. auto.
Qed.


End FilterEdges.

(** ** What discovery returns *)

Section DiscoveryResults.

Lemma read_archives_ext (fs fs' : FileSystem) (paths : list string) :
  forall self : ZipFiles.t,
    (forall path, In path paths -> ZipFile fs path = ZipFile fs' path) ->
    ZipFiles.read_archives fs paths self
    = ZipFiles.read_archives fs' paths self.
Proof.
  induction paths as [|path rest IH]; intros self Hsame; [reflexivity|].
  cbn [ZipFiles.read_archives].
  rewrite <- (Hsame path (or_introl eq_refl)).
  destruct (filter _ (namelist (ZipFile fs path))) as [|file_name [|? ?]];
    try reflexivity.
  destruct (ZipFiles.read_chunks _ self) as [self'| |]; cbn [bind];
    try reflexivity.
  apply IH. intros p Hin. apply Hsame. right. exact Hin.
Qed.

(** X10. Discovery opens the sampled files only. Two file systems that
    list the same names in the directory, agree on which of them are
    files, and hold the same archive at every path that is a file and
    that the sampling predicate accepts give the same result, whatever
    they hold at the other paths: an entry that is not a file or that the
    predicate rejects is never opened. *)
Theorem ZipFiles_init_opens_selected_only
    (fs fs' : FileSystem) (directory : string)
    (sample_container : string -> bool) :
  listdir fs directory = listdir fs' directory ->
  (forall file_name,
      In file_name (listdir fs directory) ->
      isfile fs (path_join directory file_name)
      = isfile fs' (path_join directory file_name)) ->
  (forall path,
      In path (selected_paths fs directory sample_container) ->
      ZipFile fs path = ZipFile fs' path) ->
  ZipFiles.init fs directory sample_container
  = ZipFiles.init fs' directory sample_container.
Proof.
  intros Hlist Hfile Hzip.
  assert (Hselected : selected_paths fs directory sample_container
                      = selected_paths fs' directory sample_container).
  { unfold selected_paths. rewrite <- Hlist.
    apply filter_ext_in. intros path Hin.
    apply in_map_iff in Hin. destruct Hin as (file_name & <- & Hin).
    rewrite (Hfile file_name Hin). reflexivity. }
  rewrite !init_as_read_archives, <- Hselected.
  apply read_archives_ext. exact Hzip.
Qed.

(** A result of discovery, taken apart. *)
Lemma init_Ok_inv (fs : FileSystem) (directory : string)
    (sample_container : string -> bool) (self : ZipFiles.t) :
  ZipFiles.init fs directory sample_container = Ok self ->
  Forall (fun path => well_formed_archive (ZipFile fs path))
    (selected_paths fs directory sample_container)
  /\ self
     = with_chunks
         {| ZipFiles.file_path :=
              selected_paths fs directory sample_container;
            ZipFiles.unique_patent_xml_files := [];
            ZipFiles.patent_file_name := [];
            ZipFiles.sample := sample_container |}
         (flat_map (fun path => chunks_of (ZipFile fs path))
            (selected_paths fs directory sample_container)).
Proof.
  rewrite init_as_read_archives. intros Hinit.
  match type of Hinit with
  | ZipFiles.read_archives fs ?paths ?s = _ =>
      destruct (read_archives_cases fs paths s)
        as [[Hall Hok]|[_ (e & Hraise & _)]]
  end.
  - split; [exact Hall|]. rewrite Hok in Hinit. inversion Hinit. reflexivity.
  - rewrite Hraise in Hinit. discriminate.
Qed.

Lemma chunks_of_nonempty (z : ZipArchive) (chunk : string) :
  In chunk (chunks_of z) -> chunk <> EmptyString.
Proof.
  unfold chunks_of.
  destruct (xml_members z) as [|file_name [|? ?]]; try contradiction.
  intros Hin. apply filter_In in Hin. destruct Hin as [_ Hne].
  intros ->. discriminate.
Qed.

(** X11. Sampling exclusion. When discovery returns, [file_path] holds
    the directory entries that are files and that the sampling predicate
    accepts, in listing order, and nothing else; each of their archives
    has exactly one XML member; and every container is a fragment, not
    empty, of the archive at one of these paths. A file the predicate
    rejects gives no container. *)
Theorem ZipFiles_init_sampled
    (fs : FileSystem) (directory : string)
    (sample_container : string -> bool) (self : ZipFiles.t) :
  ZipFiles.init fs directory sample_container = Ok self ->
  ZipFiles.file_path self
  = filter (fun path => isfile fs path && sample_container path)
      (map (path_join directory) (listdir fs directory))
  /\ (forall path,
         In path (ZipFiles.file_path self) ->
         isfile fs path = true
         /\ sample_container path = true
         /\ List.length
              (filter (fun file => endswith file ".xml")
                 (namelist (ZipFile fs path))) = 1%nat)
  /\ (forall chunk,
         In chunk (ZipFiles.get_xml_files_array self) ->
         chunk <> EmptyString
         /\ exists path file_name,
              In path (ZipFiles.file_path self)
              /\ filter (fun file => endswith file ".xml")
                   (namelist (ZipFile fs path)) = [file_name]
              /\ In chunk
                   (split (read_decode (ZipFile fs path) file_name)
                      XML_DELIMITER)).
Proof.
  intros Hinit. destruct (init_Ok_inv _ _ _ _ Hinit) as [Hall ->].
  cbn. split; [reflexivity|]. rewrite Forall_forall in Hall. split.
  - intros path Hin. pose proof (Hall path Hin) as [Hone _].
    apply filter_In in Hin. destruct Hin as [_ Hboth].
    apply andb_prop in Hboth. destruct Hboth. auto.
  - intros chunk Hin. apply in_flat_map in Hin.
    destruct Hin as (path & Hpath & Hchunk).
    split; [exact (chunks_of_nonempty _ _ Hchunk)|].
    unfold chunks_of, xml_members in Hchunk.
    destruct (filter (fun file => endswith file ".xml")
                (namelist (ZipFile fs path)))
      as [|file_name [|? ?]] eqn:Hxml; try contradiction.
    exists path, file_name. apply filter_In in Hchunk.
    destruct Hchunk as [Hchunk _]. auto.
Qed.

(** The value [re_search] returns stands between the quotes of a name
    attribute of the text. *)
Lemma re_search_Some (s v : string) :
  re_search s = Some v ->
  v <> EmptyString /\ quote_free v = true
  /\ exists pre post, s = pre ++ file_attr_open ++ v ++ String dquote post.
Proof.
  induction s as [|c s IH]; cbn [re_search].
  - destruct (match_here EmptyString) eqn:Hmatch; [|discriminate].
    intros H; inversion H; subst.
    destruct (match_here_Some _ _ Hmatch) as (Hne & Hfree & post & Hs).
    repeat split; try assumption. exists EmptyString, post. exact Hs.
  - destruct (match_here (String c s)) as [v'|] eqn:Hmatch.
    + intros H; inversion H; subst.
      destruct (match_here_Some _ _ Hmatch) as (Hne & Hfree & post & Hs).
      repeat split; try assumption. exists EmptyString, post. exact Hs.
    + intros Hsearch.
      destruct (IH Hsearch) as (Hne & Hfree & pre & post & Hs).
      repeat split; try assumption.
      exists (String c pre), post. rewrite Hs. reflexivity.
Qed.

Lemma string_take_length (n : nat) :
  forall s : string, (String.length (string_take n s) <= n)%nat.
Proof.
  induction n as [|n IH]; intros [|c s]; cbn; try lia.
  specialize (IH s). lia.
Qed.

Lemma append_length (a b : string) :
  String.length (a ++ b) = (String.length a + String.length b)%nat.
Proof. induction a as [|c a IH]; cbn; [reflexivity|]. rewrite IH. reflexivity. Qed.

Lemma chunk_name_bounds (xml_info name : string) :
  chunk_name xml_info = Some name ->
  name <> EmptyString /\ quote_free name = true
  /\ (String.length name <= 193)%nat.
Proof.
  unfold chunk_name. intros Hname.
  destruct (re_search_Some _ _ Hname) as (Hne & Hfree & pre & post & Hs).
  repeat split; try assumption.
  pose proof (string_take_length 200 xml_info) as Hlen.
  rewrite Hs, !append_length in Hlen. cbn in Hlen. lia.
Qed.

(** X12. The names discovery gives to containers. When discovery returns,
    every container name is not empty, holds no double quote, and has at
    most 193 characters: it lies between the quotes of a name attribute
    within the first 200 characters of its fragment. *)
Theorem ZipFiles_init_names
    (fs : FileSystem) (directory : string)
    (sample_container : string -> bool) (self : ZipFiles.t) :
  ZipFiles.init fs directory sample_container = Ok self ->
  Forall (fun name =>
            name <> EmptyString
            /\ quote_free name = true
            /\ (String.length name <= 193)%nat)
    (ZipFiles.patent_file_name self).
Proof.
  intros Hinit. destruct (init_Ok_inv _ _ _ _ Hinit) as [Hall ->].
  cbn. apply well_formed_chunks in Hall. clear Hinit.
  induction Hall as [|xml_info rest Hnamed _ IH]; [constructor|].
  cbn [map]. constructor; [|exact IH].
  apply chunk_name_Some in Hnamed. unfold name_or_empty.
  destruct (chunk_name xml_info) as [name|] eqn:Hname; [|contradiction].
  exact (chunk_name_bounds _ _ Hname).
Qed.

Lemma nth_error_names (chunks : list string) :
  Forall named chunks ->
  forall (k : nat) (chunk : string),
    nth_error chunks k = Some chunk ->
    exists name,
      nth_error (map name_or_empty chunks) k = Some name
      /\ chunk_name chunk = Some name.
Proof.
  induction 1 as [|xml_info rest Hnamed _ IH]; intros [|k] chunk Hnth;
    cbn [nth_error map] in *; try discriminate.
  - inversion Hnth; subst. apply chunk_name_Some in Hnamed.
    unfold name_or_empty.
    destruct (chunk_name chunk) as [name|]; [|contradiction].
    exists name. auto.
  - apply IH; assumption.
Qed.

(** X13. Container ids and names. When discovery returns with n
    containers, the container iterator gives the ids 0, ..., n-1, and for
    each of them [get_container_name] returns the name found in the
    fragment that the array of containers holds at that id; for an id
    from n on it raises [IndexError]. *)
Theorem ZipFiles_get_container_name_of_id
    (fs : FileSystem) (directory : string)
    (sample_container : string -> bool) (self : ZipFiles.t) :
  ZipFiles.init fs directory sample_container = Ok self ->
  ZipFiles.get_container_iterator self
  = map Z.of_nat
      (seq 0 (List.length (ZipFiles.get_xml_files_array self)))
  /\ (forall fid,
         In fid (ZipFiles.get_container_iterator self) ->
         exists chunk name,
           py_getitem (ZipFiles.get_xml_files_array self) fid = Ok chunk
           /\ ZipFiles.get_container_name self fid = Ok name
           /\ chunk_name chunk = Some name)
  /\ (forall fid,
         Z.of_nat (List.length (ZipFiles.get_xml_files_array self)) <= fid ->
         ZipFiles.get_container_name self fid = Raise IndexError).
Proof.
  intros Hinit. destruct (init_Ok_inv _ _ _ _ Hinit) as [Hall ->].
  apply well_formed_chunks in Hall.
  unfold ZipFiles.get_container_iterator, ZipFiles.get_xml_files_array,
    ZipFiles.get_container_name.
  cbn [with_chunks ZipFiles.unique_patent_xml_files ZipFiles.patent_file_name
       app].
  set (chunks := flat_map (fun path => chunks_of (ZipFile fs path))
                   (selected_paths fs directory sample_container)) in *.
  split; [reflexivity|]. split.
  - intros fid Hin. apply in_map_iff in Hin.
    destruct Hin as (k & <- & Hk). apply in_seq in Hk.
    destruct (nth_error chunks k) as [chunk|] eqn:Hnth;
      [|apply nth_error_None in Hnth; lia].
    destruct (nth_error_names chunks Hall k chunk Hnth) as (name & Hname & Hfound).
    exists chunk, name.
    rewrite (py_getitem_nth chunks (Z.of_nat k) chunk)
      by (lia || (rewrite Nat2Z.id; exact Hnth)).
    rewrite (py_getitem_nth _ (Z.of_nat k) name)
      by (lia || (rewrite Nat2Z.id; exact Hname)).
    auto.
  - intros fid Hfid. apply py_getitem_out_of_range.
    rewrite length_map. exact Hfid.
Qed.

End DiscoveryResults.

(** ** Splitting a file at the boundary marker *)

Section SplitProperties.

Lemma append_nil_r (s : string) : s ++ EmptyString = s.
Proof. induction s as [|c s IH]; cbn; [reflexivity|]. rewrite IH. reflexivity. Qed.

Lemma append_assoc (a b c : string) : (a ++ b) ++ c = a ++ b ++ c.
Proof. induction a as [|x a IH]; cbn; [reflexivity|]. rewrite IH. reflexivity. Qed.

Lemma occurs_false_prefix (sep s : string) :
  occurs sep s = false -> prefix sep s = false.
Proof.
  destruct s; cbn [occurs]; intros H; apply orb_false_elim in H; tauto.
Qed.

Lemma occurs_false_tail (sep : string) (c : ascii) (s : string) :
  occurs sep (String c s) = false -> occurs sep s = false.
Proof. cbn [occurs]. intros H. apply orb_false_elim in H. tauto. Qed.

Lemma prefix_nil (s : string) : prefix EmptyString s = true.
Proof. destruct s; reflexivity. Qed.

Lemma prefix_length (sep s : string) :
  prefix sep s = true -> (String.length sep <= String.length s)%nat.
Proof.
  revert s. induction sep as [|c sep IH]; intros [|b s]; cbn;
    try lia; try discriminate.
  destruct (ascii_dec c b); [|discriminate].
  intros H. specialize (IH s H). lia.
Qed.

(** A text without the character [a] that begins [d] followed by [a]
    ends within [d]. *)
Lemma prefix_stops (a : ascii) (d : string) :
  forall r x : string,
    occurs (String a EmptyString) r = false ->
    prefix r (d ++ String a x) = true ->
    prefix r d = true.
Proof.
  induction d as [|c d IH]; intros [|b r] x Hfree Hprefix;
    try reflexivity; cbn in Hprefix |- *.
  - destruct (ascii_dec b a) as [->|]; [|discriminate].
    cbn in Hfree. destruct (ascii_dec a a); [|congruence].
    rewrite prefix_nil in Hfree. discriminate.
  - destruct (ascii_dec b c); [|discriminate].
    apply (IH r x); [|exact Hprefix].
    exact (occurs_false_tail _ _ _ Hfree).
Qed.

(** A separator whose first character does not come back in it cannot
    begin inside [d] and end inside a separator that follows [d]. *)
Lemma prefix_straddle (a : ascii) (r d t : string) :
  occurs (String a EmptyString) r = false ->
  d <> EmptyString ->
  prefix (String a r) (d ++ String a r ++ t) = true ->
  prefix (String a r) d = true.
Proof.
  intros Hfree Hd. destruct d as [|c d]; [contradiction|]. cbn.
  destruct (ascii_dec a c); [|discriminate].
  apply prefix_stops. exact Hfree.
Qed.

Lemma split_from_skip (sep x : string) (r : string) :
  forall cur,
    split_from sep (r ++ x) (String.length r) cur = split_from sep x O cur.
Proof.
  induction r as [|c r IH]; intros cur; [destruct x; reflexivity|].
  cbn. apply IH.
Qed.

Lemma string_join_cons (sep d p : string) (ps : list string) :
  string_join sep (d :: p :: ps) = d ++ sep ++ string_join sep (p :: ps).
Proof. reflexivity. Qed.

(** A text without the separator is one piece. *)
Lemma split_from_no_marker (sep d : string) :
  forall cur,
    occurs sep d = false -> split_from sep d O cur = [cur ++ d].
Proof.
  induction d as [|c d IH]; intros cur Hfree.
  - cbn. rewrite append_nil_r. reflexivity.
  - cbn [split_from]. rewrite (occurs_false_prefix _ _ Hfree).
    rewrite IH by exact (occurs_false_tail _ _ _ Hfree).
    rewrite append_assoc. reflexivity.
Qed.

(** Splitting undoes joining, for pieces without the separator and a
    separator whose first character does not come back in it. *)
Lemma split_from_join (a : ascii) (r : string) :
  occurs (String a EmptyString) r = false ->
  forall (pieces : list string) (d cur : string),
    Forall (fun piece => occurs (String a r) piece = false) (d :: pieces) ->
    split_from (String a r) (string_join (String a r) (d :: pieces)) O cur
    = (cur ++ d) :: pieces.
Proof.
  intros Hfree. induction pieces as [|p ps IH]; intros d cur Hall.
  - cbn [string_join]. apply split_from_no_marker.
    inversion Hall; assumption.
  - rewrite string_join_cons.
    inversion Hall as [|? ? Hd Hrest]; subst. clear Hall.
    revert cur. induction d as [|c d IHd]; intros cur.
    + change (EmptyString ++ String a r ++ string_join (String a r) (p :: ps))
        with (String a (r ++ string_join (String a r) (p :: ps))).
      cbn [split_from].
      change (String a (r ++ string_join (String a r) (p :: ps)))
        with (String a r ++ string_join (String a r) (p :: ps)).
      rewrite prefix_app.
      replace (String.length (String a r) - 1)%nat with (String.length r)
        by (cbn; lia).
      rewrite split_from_skip, (IH p EmptyString Hrest), append_nil_r.
      reflexivity.
    + change (String c d ++ String a r ++ string_join (String a r) (p :: ps))
        with (String c (d ++ String a r
                          ++ string_join (String a r) (p :: ps))).
      cbn [split_from].
      destruct (prefix (String a r)
                  (String c (d ++ String a r
                               ++ string_join (String a r) (p :: ps))))
        eqn:Hprefix.
      * apply (prefix_straddle a r (String c d)) in Hprefix;
          [|exact Hfree|discriminate].
        rewrite (occurs_false_prefix _ _ Hd) in Hprefix. discriminate.
      * rewrite IHd by exact (occurs_false_tail _ _ _ Hd).
        rewrite append_assoc. reflexivity.
Qed.

(** The first character of the boundary marker does not come back in
    it. *)
Lemma XML_DELIMITER_first :
  XML_DELIMITER = String "<" (string_drop 1 XML_DELIMITER)
  /\ occurs "<" (string_drop 1 XML_DELIMITER) = false.
Proof. split; vm_compute; reflexivity. Qed.

Lemma split_join_XML_DELIMITER (d : string) (pieces : list string) :
  Forall (fun piece => occurs XML_DELIMITER piece = false) (d :: pieces) ->
  split (string_join XML_DELIMITER (d :: pieces)) XML_DELIMITER = d :: pieces.
Proof.
  destruct XML_DELIMITER_first as [Hsep Hfree]. unfold split.
  rewrite Hsep. intros Hall.
  exact (split_from_join "<" _ Hfree pieces d EmptyString Hall).
Qed.

Lemma flat_map_same_on {A B : Type} (f g : A -> list B) (l : list A) :
  (forall x, In x l -> f x = g x) -> flat_map f l = flat_map g l.
Proof.
  induction l as [|x l IH]; intros Hsame; [reflexivity|].
  cbn [flat_map]. rewrite (Hsame x (or_introl eq_refl)), IH; [reflexivity|].
  intros y Hin. apply Hsame. right. exact Hin.
Qed.

(** X14. A file of concatenated documents. When every archive discovery
    opens has one XML member whose content is a list of pieces joined by
    the boundary marker, no piece holding the marker, and every piece that
    is not empty holding a name attribute in its first 200 characters,
    discovery returns, and the containers are exactly these pieces without
    the empty ones, archive after archive in listing order: no piece is
    lost, cut or joined with another. *)
Theorem ZipFiles_init_concatenated_documents
    (fs : FileSystem) (directory : string)
    (sample_container : string -> bool)
    (first_piece : string -> string) (pieces : string -> list string) :
  (forall path,
      In path (selected_paths fs directory sample_container) ->
      (exists file_name,
          filter (fun file => endswith file ".xml")
            (namelist (ZipFile fs path)) = [file_name]
          /\ read_decode (ZipFile fs path) file_name
             = string_join XML_DELIMITER (first_piece path :: pieces path))
      /\ Forall (fun piece => occurs XML_DELIMITER piece = false)
           (first_piece path :: pieces path)
      /\ Forall named (filter nonempty (first_piece path :: pieces path))) ->
  exists self,
    ZipFiles.init fs directory sample_container = Ok self
    /\ ZipFiles.get_xml_files_array self
       = flat_map
           (fun path => filter nonempty (first_piece path :: pieces path))
           (selected_paths fs directory sample_container).
Proof.
  intros Hdocs. rewrite init_as_read_archives.
  assert (Hchunks : forall path,
             In path (selected_paths fs directory sample_container) ->
             List.length (xml_members (ZipFile fs path)) = 1%nat
             /\ chunks_of (ZipFile fs path)
                = filter nonempty (first_piece path :: pieces path)).
  { intros path Hin.
    destruct (Hdocs path Hin) as ((file_name & Hxml & Hcontent) & Hfree & _).
    unfold chunks_of, xml_members. rewrite Hxml, Hcontent.
    rewrite (split_join_XML_DELIMITER _ _ Hfree). auto. }
  match goal with
  | |- exists self, ZipFiles.read_archives fs ?paths ?s = _ /\ _ =>
      destruct (read_archives_cases fs paths s)
        as [[_ Hok]|[Hfault _]]
  end.
  - eexists. split; [exact Hok|]. cbn.
    apply flat_map_same_on. intros path Hin. apply (Hchunks path Hin).
  - exfalso. apply Exists_exists in Hfault.
    destruct Hfault as (path & Hin & Hfault).
    apply (well_formed_no_fault (ZipFile fs path)); [|exact Hfault].
    destruct (Hchunks path Hin) as [Hone Heq].
    split; [exact Hone|]. rewrite Heq. apply (Hdocs path Hin).
Qed.

End SplitProperties.

(** ** The cursor over delimited files *)

Section CsvScan.

Lemma CsvCursor_rows_from_row (fuel : nat) :
  forall (table : CsvCursor.Table) (i : Z) (row : list string)
         (rest : list (list string)),
    row <> [] ->
    (List.length rest < fuel)%nat ->
    CsvCursor_rows_from fuel
      {| CsvCursor.table := table; CsvCursor.eof := false;
         CsvCursor.item_index := i; CsvCursor.row_value := Some row;
         CsvCursor.reader := Some rest |}
    = map (fun ir => (fst ir, Some (snd ir)))
        (enumerate i (until_empty (row :: rest))).
Proof.
  induction fuel as [|fuel IH]; intros table i row rest Hrow Hfuel; [lia|].
  cbn [CsvCursor_rows_from CsvCursor.Eof CsvCursor.eof CsvCursor.Rowid
       CsvCursor.item_index CsvCursor.row_value].
  destruct row as [|field fields]; [contradiction|].
  cbn [until_empty enumerate map fst snd]. f_equal.
  destruct rest as [|[|field' fields'] rest'].
  - rewrite CsvCursor_Next_end by reflexivity. destruct fuel; reflexivity.
  - rewrite (CsvCursor_Next_empty_record _ rest') by reflexivity.
    destruct fuel; reflexivity.
  - rewrite (CsvCursor_Next_row _ (field' :: fields') rest')
      by (reflexivity || discriminate).
    cbn [CsvCursor.table CsvCursor.eof CsvCursor.item_index].
    apply IH; [discriminate|cbn in Hfuel; lia].
Qed.

(** X15. A full scan of a delimited file. [Filter] returns on every
    cursor, and a caller that then reads a row and calls [Next] while
    [Eof] is false reads the records after the header up to the first
    empty one, in order, with the row ids 0, 1, 2, ... *)
Theorem CsvCursor_full_scan (self : CsvCursor.t) :
  exists s0,
    CsvCursor.Filter self = Ok s0
    /\ CsvCursor_rows s0
       = map (fun ir => (fst ir, Some (snd ir)))
           (enumerate 0
              (until_empty (tl (CsvCursor.records (CsvCursor.table self))))).
Proof.
  unfold CsvCursor.Filter, CsvCursor_rows.
  cbn [CsvCursor.reader CsvCursor.table CsvCursor.eof CsvCursor.item_index
       CsvCursor.row_value].
  destruct (CsvCursor.records (CsvCursor.table self))
    as [|header [|[|field fields] rest]] eqn:Hrecords;
    cbn [CsvCursor.next_or_None bind snd tl];
    try (eexists; split; [reflexivity|]; cbn; rewrite ?Hrecords; reflexivity).
  eexists. split; [reflexivity|].
  cbn [CsvCursor.table]. rewrite Hrecords.
  apply CsvCursor_rows_from_row; [discriminate|cbn; lia].
Qed.


End CsvScan.

(** ** Discovery and scan together *)

Section DiscoveryAndScan.
Context {env : Env}.

Lemma enumerate_fst {A : Type} (l : list A) :
  forall k : nat,
    map fst (enumerate (Z.of_nat k) l)
    = map Z.of_nat (seq k (List.length l)).
Proof.
  induction l as [|x l IH]; intros k; [reflexivity|].
  cbn [enumerate map fst List.length seq]. f_equal.
  replace (Z.of_nat k + 1) with (Z.of_nat (S k)) by lia. apply IH.
Qed.

(** X17. The scan visits the containers the data files announce. A root
    cursor constructed over the streaming table of the data files, after
    [Filter] with index number 0, visits exactly the ids that
    [get_container_iterator] gives, each once and in that order, whatever
    the cache holds. *)
Theorem PatentsCursor_scans_container_iterator
    (data_files : ZipFiles.t)
    (extractor : Z -> option (option Element -> Value))
    (extract_multiple : option Element -> option (list Element))
    (g : Globals) (constraint_args : list Z) :
  exists s0 : PatentsCursor.t * Globals,
    PatentsCursor.Filter
      (PatentsCursor.init
         (streaming_table data_files extractor extract_multiple))
      g 0 constraint_args = Ok s0
    /\ map (fun s => PatentsCursor.container_id (fst s)) (Cursor.rows s0)
       = map Some (VTSource_get_container_iterator data_files).
Proof.
  destruct (full_scan_rows
              (PatentsCursor.init
                 (streaming_table data_files extractor extract_multiple))
              g constraint_args) as (s0 & HFilter & Hrows).
  exists s0. split; [exact HFilter|].
  transitivity
    (map (fun r : option Z * Z * option Element * Result Value
                  * Result Value * Z => fst (fst (fst (fst (fst r)))))
       (map patent_row (Cursor.rows s0))).
  { rewrite map_map. reflexivity. }
  rewrite Hrows.
  unfold VTSource_get_container_iterator, ZipFiles.get_container_iterator.
  change (data_source
            (XMLChunkCursor.table
               (PatentsCursor.files_cursor
                  (PatentsCursor.init
                     (streaming_table data_files extractor extract_multiple)))))
    with (ZipFiles.unique_patent_xml_files data_files).
  destruct (ZipFiles.unique_patent_xml_files data_files) as [|c0 rest];
    [reflexivity|].
  cbn [map fst List.length seq]. f_equal.
  rewrite map_map. cbn [parsed_patent_row fst].
  rewrite <- (enumerate_fst rest 1), !map_map. reflexivity.
Qed.

End DiscoveryAndScan.

(** ** Two cursors pinned to one container *)

Section SharedParse.
Context {env : Env}.

(** The state [Filter] leaves, pinned to a container the list has. *)
Lemma pinned_Filter_state (pc : PatentsCursor.t) (g : Globals)
    (index_number k : Z) (rest : list Z) (chunk : string) :
  Z.land index_number CONTAINER_INDEX <> 0 ->
  Z.land index_number ROWID_INDEX = 0 ->
  py_getitem
    (data_source (XMLChunkCursor.table (PatentsCursor.files_cursor pc))) k
  = Ok chunk ->
  exists pc1 : PatentsCursor.t,
    PatentsCursor.Filter pc g index_number (k :: rest)
    = Ok (pc1, snd (file_cache_read g chunk k))
    /\ PatentsCursor.Eof pc1 = false
    /\ PatentsCursor.container_id pc1 = Some k
    /\ PatentsCursor.current_row_value pc1 = fst (file_cache_read g chunk k).
Proof.
  intros Hflag Hrowid Hget.
  pose proof (py_getitem_Ok_range _ _ _ Hget) as [_ Hk].
  unfold PatentsCursor.Filter, XMLChunkCursor.Filter.
  destruct (Z.eqb_spec index_number 0) as [->|_];
    [rewrite Z.land_0_l in Hflag; contradiction|].
  destruct (Z.eqb_spec (Z.land index_number CONTAINER_INDEX) 0) as [?|_];
    [contradiction|].
  rewrite Hrowid. cbn [negb Z.eqb]. rewrite py_getitem_head. cbn [bind].
  unfold XMLChunkCursor.Next.
  cbn [XMLChunkCursor.single_file XMLChunkCursor.file_read
       XMLChunkCursor.file_index XMLChunkCursor.table py_bool andb].
  replace (k - 1 + 1) with k by lia.
  destruct (Z.geb_spec k
              (Z.of_nat
                 (List.length
                    (data_source
                       (XMLChunkCursor.table (PatentsCursor.files_cursor pc))))))
    as [?|_]; [lia|].
  rewrite Hget. cbn [bind].
  destruct (file_cache_read g chunk k) as [tree g1]. cbn [bind fst snd].
  eexists. split; [reflexivity|]. repeat split.
Qed.

(** X18. Two tables over one container share the parse. When a root
    cursor is pinned to the container [k], a second root cursor pinned to
    the same [k] right after it returns the same tree from the cache: the
    parser is not called, the parse counter and the cache stay as the
    first cursor left them, and the chunk that the table of the second
    cursor has at [k] is not read. *)
Theorem pinned_scans_share_the_parse
    (pc pc' : PatentsCursor.t) (g : Globals)
    (index_number index_number' k : Z) (rest rest' : list Z)
    (chunk chunk' : string) :
  Z.land index_number CONTAINER_INDEX <> 0 ->
  Z.land index_number ROWID_INDEX = 0 ->
  Z.land index_number' CONTAINER_INDEX <> 0 ->
  Z.land index_number' ROWID_INDEX = 0 ->
  py_getitem
    (data_source (XMLChunkCursor.table (PatentsCursor.files_cursor pc))) k
  = Ok chunk ->
  py_getitem
    (data_source (XMLChunkCursor.table (PatentsCursor.files_cursor pc'))) k
  = Ok chunk' ->
  exists s1 s2 : PatentsCursor.t * Globals,
    PatentsCursor.Filter pc g index_number (k :: rest) = Ok s1
    /\ PatentsCursor.Filter pc' (snd s1) index_number' (k :: rest') = Ok s2
    /\ PatentsCursor.current_row_value (fst s2)
       = PatentsCursor.current_row_value (fst s1)
    /\ snd s2 = snd s1
    /\ parse_counter (snd s1) <= parse_counter g + 1.
Proof.
  intros Hflag Hrowid Hflag' Hrowid' Hget Hget'.
  destruct (pinned_Filter_state pc g index_number k rest chunk
              Hflag Hrowid Hget) as (pc1 & HFilter & _ & _ & Htree).
  destruct (pinned_Filter_state pc' (snd (file_cache_read g chunk k))
              index_number' k rest' chunk' Hflag' Hrowid' Hget')
    as (pc2 & HFilter' & _ & _ & Htree').
  pose proof (read_slot (file_cache g) (parse_counter g) chunk k)
    as [Hid Hdata].
  assert (Hn : parse_counter (snd (file_cache_read g chunk k))
               <= parse_counter g + 1).
  { unfold file_cache_read, FileCache.read.
    destruct (FileCache.id_eq _ _); cbn; lia. }
  assert (Hhit :
    file_cache_read (snd (file_cache_read g chunk k)) chunk' k
    = (fst (file_cache_read g chunk k), snd (file_cache_read g chunk k))).
  { unfold file_cache_read in *.
    destruct (FileCache.read (file_cache g) (parse_counter g) chunk k)
      as [[tree fc] n]. cbn [fst snd file_cache parse_counter] in *.
    rewrite (read_hit fc n chunk' k Hid). cbn. rewrite Hdata. reflexivity. }
  rewrite Hhit in HFilter', Htree'. cbn [fst snd] in HFilter', Htree'.
  exists (pc1, snd (file_cache_read g chunk k)),
         (pc2, snd (file_cache_read g chunk k)).
  cbn [fst snd]. repeat split; try assumption. congruence.
Qed.

End SharedParse.

(** ** The further properties at sample inputs *)

Section FurtherSamples.
#[local] Existing Instance Sample.env.

(** X1 at reads of the containers 0, 0, 1 and 0 from a new cache. *)
Lemma FileCache_reads_transparent_witness :
  fst (fst (FileCache.reads FileCache.init 0 Scenario.calls))
  = map (fun call => Some (fromstring (fst call))) Scenario.calls
  /\ agrees Scenario.chunk_of
       (snd (fst (FileCache.reads FileCache.init 0 Scenario.calls)))
  /\ 0 <= snd (FileCache.reads FileCache.init 0 Scenario.calls)
       <= 0 + Z.of_nat (List.length Scenario.calls).
Proof.
  apply (FileCache_reads_transparent Scenario.chunk_of Scenario.calls
           FileCache.init 0).
  - exact I.
  - repeat (apply Forall_cons; [reflexivity|]). apply Forall_nil.
Defined.

(** X3 at the nested cursor over the chunks with two, no and one
    sub-element. *)
Lemma PatentsIpcrCurcor_full_scan_witness :
  map classification_row
    (match PatentsElementsCursor.Next
             (Sample.classifications ["a12"; "b"; "c3"]) with
     | Ok c1 => Cursor.rows c1
     | _ => []
     end)
  = (classification_rows_of Sample.chars_after_first (Some 0)
       (fst (file_cache_read Sample.globals "a12" 0))
     ++ flat_map
          (fun ic =>
             classification_rows_of Sample.chars_after_first
               (Some (fst ic)) (Some (fromstring (snd ic))))
          (enumerate 1 ["b"; "c3"]))%list.
Proof.
  apply (PatentsIpcrCurcor_full_scan
           (Sample.classifications ["a12"; "b"; "c3"])
           (PatentsCursor.init (Sample.table ["a12"; "b"; "c3"]))
           Sample.globals []).
  - reflexivity.
  - reflexivity.
Defined.

(** X4 at the pinned index -1 of three containers, which is the last. *)
Lemma PatentsCursor_pinned_scan_witness :
  exists s1 : Sample.root,
    PatentsCursor.Filter Scenario.fresh_patents Sample.globals 1 [-1] = Ok s1
    /\ map patent_row (Cursor.rows s1)
       = [(Some (-1), 0, fst (file_cache_read Sample.globals "c3" (-1)),
           Ok (VInt (-1)), Ok (VInt (-1)),
           parse_counter (snd (file_cache_read Sample.globals "c3" (-1))))].
Proof.
  apply (PatentsCursor_pinned_scan Scenario.fresh_patents Sample.globals
           1 (-1) [] "c3").
  - vm_compute. discriminate.
  - reflexivity.
  - reflexivity.
Defined.

(** X5 at the pinned index -4 of three containers. *)
Lemma Filter_pinned_below_range_witness :
  XMLChunkCursor.Filter (PatentsCursor.files_cursor Scenario.fresh_patents)
    Sample.globals 1 [-4] = Raise IndexError
  /\ PatentsCursor.Filter Scenario.fresh_patents Sample.globals 1 [-4]
     = Raise IndexError.
Proof.
  apply (Filter_pinned_below_range Scenario.fresh_patents Sample.globals
           1 (-4) []).
  - vm_compute. discriminate.
  - vm_compute. reflexivity.
Defined.

(** X6 at the nested cursor over the root cursor pinned to container 2 of
    three. *)
Lemma PatentsIpcrCurcor_pinned_scan_witness :
  map classification_row
    (match PatentsElementsCursor.Next (Scenario.pinned_classifications 2) with
     | Ok c1 => Cursor.rows c1
     | _ => []
     end)
  = classification_rows_of Sample.chars_after_first (Some 2)
      (fst (file_cache_read Sample.globals "c3" 2)).
Proof.
  apply (PatentsIpcrCurcor_pinned_scan (Scenario.pinned_classifications 2)
           Scenario.fresh_patents Sample.globals 1 2 [] "c3").
  - reflexivity.
  - vm_compute. discriminate.
  - reflexivity.
  - reflexivity.
  - reflexivity.
Defined.

(** X7 at the index number 2, the row-id flag alone. *)
Lemma Filter_without_container_flag_witness :
  XMLChunkCursor.Filter (XMLChunkCursor.init (Sample.table Scenario.chunks))
    Sample.globals 2 [0; 0]
  = XMLChunkCursor.Next (XMLChunkCursor.init (Sample.table Scenario.chunks))
      Sample.globals
  /\ PatentsCursor.Filter (PatentsCursor.init (Sample.table Scenario.chunks))
       Sample.globals 2 [0; 0] = Raise TypeError
  /\ PatentsCursor.Next (PatentsCursor.init (Sample.table Scenario.chunks))
       Sample.globals = Raise TypeError.
Proof.
  apply (Filter_without_container_flag
           (XMLChunkCursor.init (Sample.table Scenario.chunks))
           (Sample.table Scenario.chunks) Sample.globals 2 [0; 0]).
  - discriminate.
  - reflexivity.
Defined.

(** X8 at the index number 3, both flags, the pinned index 1 and the row
    id 7. *)
Lemma Filter_constraint_arguments_witness :
  PatentsCursor.Filter Scenario.fresh_patents Sample.globals 3 []
  = Raise IndexError
  /\ PatentsCursor.Filter Scenario.fresh_patents Sample.globals 3 [1]
     = Raise IndexError
  /\ exists s1 : Sample.root,
       PatentsCursor.Filter Scenario.fresh_patents Sample.globals 3 [1; 7]
       = Ok s1
       /\ PatentsCursor.Eof (fst s1) = false
       /\ PatentsCursor.container_id (fst s1) = Some 1
       /\ PatentsCursor.Rowid (fst s1) = 7.
Proof.
  apply (Filter_constraint_arguments Scenario.fresh_patents Sample.globals
           3 1 7 [] "b").
  - vm_compute. discriminate.
  - vm_compute. discriminate.
  - lia.
  - reflexivity.
Defined.


(** X10 at a directory whose second entry the sampling predicate rejects:
    an archive without members there, or one with two XML members, makes
    no difference. *)
Lemma ZipFiles_init_opens_selected_only_witness :
  ZipFiles.init (Scenario.two_entries Scenario.no_members) "dir"
    Scenario.week_only
  = ZipFiles.init (Scenario.two_entries Scenario.two_members) "dir"
      Scenario.week_only.
Proof.
  apply (ZipFiles_init_opens_selected_only
           (Scenario.two_entries Scenario.no_members)
           (Scenario.two_entries Scenario.two_members)
           "dir" Scenario.week_only).
  - reflexivity.
  - intros file_name _. reflexivity.
  - intros path Hin. vm_compute in Hin. destruct Hin as [<-|[]].
    reflexivity.
Defined.

(** X11 at the archive with the fragments A.XML and B.XML. *)
Lemma ZipFiles_init_sampled_witness :
  ZipFiles.file_path Sample.zip_files
  = filter
      (fun path =>
         isfile (Sample.one_archive Sample.two_names) path
         && (fun _ : string => true) path)
      (map (path_join "dir")
         (listdir (Sample.one_archive Sample.two_names) "dir"))
  /\ (forall path,
         In path (ZipFiles.file_path Sample.zip_files) ->
         isfile (Sample.one_archive Sample.two_names) path = true
         /\ (fun _ : string => true) path = true
         /\ List.length
              (filter (fun file => endswith file ".xml")
                 (namelist (ZipFile (Sample.one_archive Sample.two_names)
                              path))) = 1%nat)
  /\ (forall chunk,
         In chunk (ZipFiles.get_xml_files_array Sample.zip_files) ->
         chunk <> EmptyString
         /\ exists path file_name,
              In path (ZipFiles.file_path Sample.zip_files)
              /\ filter (fun file => endswith file ".xml")
                   (namelist (ZipFile (Sample.one_archive Sample.two_names)
                                path)) = [file_name]
              /\ In chunk
                   (split
                      (read_decode
                         (ZipFile (Sample.one_archive Sample.two_names) path)
                         file_name)
                      XML_DELIMITER)).
Proof.
  apply (ZipFiles_init_sampled
           (Sample.one_archive Sample.two_names) "dir" (fun _ => true)
           Sample.zip_files).
  reflexivity.
Defined.

(** X12 at the archive with the fragments A.XML and B.XML. *)
Lemma ZipFiles_init_names_witness :
  Forall (fun name =>
            name <> EmptyString
            /\ quote_free name = true
            /\ (String.length name <= 193)%nat)
    (ZipFiles.patent_file_name Sample.zip_files).
Proof.
  apply (ZipFiles_init_names
           (Sample.one_archive Sample.two_names) "dir" (fun _ => true)
           Sample.zip_files).
  reflexivity.
Defined.

(** X13 at the archive with the fragments A.XML and B.XML. *)
Lemma ZipFiles_get_container_name_of_id_witness :
  ZipFiles.get_container_iterator Sample.zip_files
  = map Z.of_nat
      (seq 0 (List.length (ZipFiles.get_xml_files_array Sample.zip_files)))
  /\ (forall fid,
         In fid (ZipFiles.get_container_iterator Sample.zip_files) ->
         exists chunk name,
           py_getitem (ZipFiles.get_xml_files_array Sample.zip_files) fid
           = Ok chunk
           /\ ZipFiles.get_container_name Sample.zip_files fid = Ok name
           /\ chunk_name chunk = Some name)
  /\ (forall fid,
         Z.of_nat
           (List.length (ZipFiles.get_xml_files_array Sample.zip_files))
         <= fid ->
         ZipFiles.get_container_name Sample.zip_files fid = Raise IndexError).
Proof.
  apply (ZipFiles_get_container_name_of_id
           (Sample.one_archive Sample.two_names) "dir" (fun _ => true)
           Sample.zip_files).
  reflexivity.
Defined.

(** X14 at the archive whose member is an empty piece and the fragments
    A.XML and B.XML, joined by the boundary marker. *)
Lemma ZipFiles_init_concatenated_documents_witness :
  exists self,
    ZipFiles.init (Sample.one_archive Sample.two_names) "dir" (fun _ => true)
    = Ok self
    /\ ZipFiles.get_xml_files_array self
       = flat_map
           (fun path : string =>
              filter nonempty
                (EmptyString
                 :: [Sample.fragment "A.XML" "x"; Sample.fragment "B.XML" "y"]))
           (selected_paths (Sample.one_archive Sample.two_names) "dir"
              (fun _ => true)).
Proof.
  apply (ZipFiles_init_concatenated_documents
           (Sample.one_archive Sample.two_names) "dir" (fun _ => true)
           (fun _ => EmptyString)
           (fun _ => [Sample.fragment "A.XML" "x";
                      Sample.fragment "B.XML" "y"])).
  intros path _. split; [|split].
  - exists "week.xml". split; reflexivity.
  - repeat (apply Forall_cons; [vm_compute; reflexivity|]). apply Forall_nil.
  - apply Forall_forall. intros xml_info Hin. vm_compute in Hin.
    destruct Hin as [<-|[<-|[]]]; apply chunk_name_Some; vm_compute;
      discriminate.
Defined.


(** X18 at two root cursors pinned to container 1 of three, one after the
    other, from a new cache. *)
Lemma pinned_scans_share_the_parse_witness :
  exists s1 s2 : Sample.root,
    PatentsCursor.Filter Scenario.fresh_patents Sample.globals 1 [1] = Ok s1
    /\ PatentsCursor.Filter Scenario.fresh_patents (snd s1) 1 [1] = Ok s2
    /\ PatentsCursor.current_row_value (fst s2)
       = PatentsCursor.current_row_value (fst s1)
    /\ snd s2 = snd s1
    /\ parse_counter (snd s1) <= parse_counter Sample.globals + 1.
Proof.
  apply (pinned_scans_share_the_parse
           Scenario.fresh_patents Scenario.fresh_patents Sample.globals
           1 1 1 [] [] "b" "b").
  - vm_compute. discriminate.
  - reflexivity.
  - vm_compute. discriminate.
  - reflexivity.
  - reflexivity.
  - reflexivity.
Defined.

End FurtherSamples.
